(** * fuzzy-search: a shallow embedding of [src/fuzzy-search.ts]

    The development follows the TypeScript source: the settings class
    [FuzzyMatchSettings] with its validating constructor, the entry points
    [fuzzySearch] and [fuzzySearchByProperty], and the sliding-window scan
    of the fuzzy tier with its early exit.

    Modelling choices.
    - A JS [number] that the library handles (lengths, indices, settings)
      is an integer, modelled as [Z]; [Math.floor (a / 100)] is [Z.div].
    - A JS string is a [string] over 8-bit characters, read as code
      units.  [toLowerCase] and [toUpperCase] change the letters A-Z / a-z,
      which is what the built-ins do on ASCII text; [toUpperCase] also
      turns the sharp s (code unit 223) into "SS", the one case here in
      which a case mapping changes the length of a string.  Statements
      that need more of the case mappings than this say so in their
      hypotheses ([ascii_text]).
    - An item of the searched collection is a string or a plain object
      (a list of own properties).  Only own properties are looked up: the
      prototype chain is not part of the model.
    - A call returns a value ([Ok]) or throws ([Throw] with the message of
      the [Error]).  The two loops of the fuzzy tier run on fuel; the
      function supplies it and [OutOfFuel] is shown never to come out. *)

From Stdlib Require Import ZArith List Bool Ascii String Lia DecimalString.
Import ListNotations.

Local Open Scope string_scope.
Local Open Scope list_scope.
Local Open Scope Z_scope.

(** ** Outcomes of a call *)

Inductive outcome (A : Type) : Type :=
| Ok (a : A)
| Throw (message : string)
| OutOfFuel.

Arguments Ok {A} a.
Arguments Throw {A} message.
Arguments OutOfFuel {A}.

Definition bind {A B : Type} (r : outcome A) (k : A -> outcome B) : outcome B :=
  match r with
  | Ok a => k a
  | Throw m => Throw m
  | OutOfFuel => OutOfFuel
  end.

Notation "x <- e ;; k" := (bind e (fun x => k))
  (at level 61, e at next level, right associativity).

(** ** JS strings *)

Definition length_Z (s : string) : Z := Z.of_nat (String.length s).

(** [s[i]]: the character at index [i], [undefined] ([None]) out of range. *)
Definition char_at (s : string) (i : Z) : option ascii :=
  if i <? 0 then None else String.get (Z.to_nat i) s.

(** [a !== b] on two results of indexing a string. *)
Definition strict_neq (a b : option ascii) : bool :=
  match a, b with
  | Some x, Some y => negb (Ascii.eqb x y)
  | None, None => false
  | _, _ => true
  end.

Definition lower_ascii (c : ascii) : ascii :=
  let n := nat_of_ascii c in
  if (Nat.leb 65 n && Nat.leb n 90)%bool then ascii_of_nat (n + 32) else c.

Definition upper_ascii (c : ascii) : ascii :=
  let n := nat_of_ascii c in
  if (Nat.leb 97 n && Nat.leb n 122)%bool then ascii_of_nat (n - 32) else c.

Fixpoint map_string (f : ascii -> ascii) (s : string) : string :=
  match s with
  | EmptyString => EmptyString
  | String c s' => String (f c) (map_string f s')
  end.

Definition toLowerCase (s : string) : string := map_string lower_ascii s.

(** The sharp s, code unit 223: its upper-case form is "SS". *)
Definition sharp_s : ascii := ascii_of_nat 223.

Definition upper_chars (c : ascii) : string :=
  if Ascii.eqb c sharp_s then "SS" else String (upper_ascii c) EmptyString.

Fixpoint toUpperCase (s : string) : string :=
  match s with
  | EmptyString => EmptyString
  | String c s' => (upper_chars c ++ toUpperCase s')%string
  end.

(** Text made of ASCII characters (code units below 128) only. *)
Fixpoint ascii_text (s : string) : bool :=
  match s with
  | EmptyString => true
  | String c s' => (Nat.ltb (nat_of_ascii c) 128 && ascii_text s')%bool
  end.

(** [s.includes(q)]: [q] occurs in [s] at some offset. *)
Fixpoint includes (s q : string) : bool :=
  (String.prefix q s ||
   match s with
   | EmptyString => false
   | String _ s' => includes s' q
   end)%bool.

(** ** JS values and items *)

Inductive value : Type :=
| VUndefined
| VNull
| VBoolean (b : bool)
| VNumber (z : Z)
| VString (s : string)
| VObject.

Inductive item : Type :=
| ItemString (s : string)
| ItemObject (fields : list (string * value)).

(** [typeof v === 'string'] *)
Definition typeof_string (v : value) : bool :=
  match v with
  | VString _ => true
  | _ => false
  end.

Definition item_is_string (x : item) : bool :=
  match x with
  | ItemString _ => true
  | ItemObject _ => false
  end.

(** [String(v)] *)
Definition ToString (v : value) : string :=
  match v with
  | VUndefined => "undefined"
  | VNull => "null"
  | VBoolean true => "true"
  | VBoolean false => "false"
  | VNumber z => NilZero.string_of_int (Z.to_int z)
  | VString s => s
  | VObject => "[object Object]"
  end.

(** [String(x)] on an item. *)
Definition ToString_item (x : item) : string :=
  match x with
  | ItemString s => s
  | ItemObject _ => "[object Object]"
  end.

(** The property key that [x[itemProperty]] reads: a [null] selector is
    converted to the key ["null"]. *)
Definition property_key (itemProperty : option string) : string :=
  match itemProperty with
  | None => "null"
  | Some k => k
  end.

(** A key that is a canonical array index ("0", "1", "12", ...). *)
Definition array_index (key : string) : option nat :=
  match NilEmpty.uint_of_string key with
  | Some u =>
      let n := Nat.of_uint u in
      if String.eqb (NilZero.string_of_uint (Nat.to_uint n)) key
      then Some n else None
  | None => None
  end.

Fixpoint lookup (fields : list (string * value)) (key : string) : value :=
  match fields with
  | [] => VUndefined
  | (k, v) :: rest => if String.eqb k key then v else lookup rest key
  end.

(** [x[key]] on an item: the own properties of a string are its [length]
    and its characters; those of an object are its fields. *)
Definition get_property (x : item) (key : string) : value :=
  match x with
  | ItemString s =>
      if String.eqb key "length" then VNumber (length_Z s)
      else match array_index key with
           | Some i =>
               match String.get i s with
               | Some c => VString (String c EmptyString)
               | None => VUndefined
               end
           | None => VUndefined
           end
  | ItemObject fields => lookup fields key
  end.

(** ** FuzzyMatchSettings *)

Record FuzzyMatchSettings : Type := Build_FuzzyMatchSettings {
  minimum_length_for_search : Z;
  minimum_length_for_fuzzy_match : Z;
  percentage_allowed_mismatch : Z;
  case_sensitive_match : bool
}.

Definition maximum_allowed_mismatch : Z := 50.
Definition default__minimum_length_for_search : Z := 1.
Definition default__minimum_length_for_fuzzy_match : Z := 5.
Definition default__percentage_allowed_mismatch : Z := 25.
Definition default__case_sensitive_match : bool := false.

(** [!x] on an optional number: absent or zero. *)
Definition not_number (x : option Z) : bool :=
  match x with
  | None => true
  | Some z => z =? 0
  end.

(** [!x] on an optional boolean: absent or false. *)
Definition not_boolean (x : option bool) : bool :=
  match x with
  | None => true
  | Some b => negb b
  end.

Definition number_or (x : option Z) (d : Z) : Z :=
  match x with
  | Some z => z
  | None => d
  end.

Definition boolean_or (x : option bool) (d : bool) : bool :=
  match x with
  | Some b => b
  | None => d
  end.

Definition invalid_minimum_length_for_search : string :=
  "Invalid value provided for minimum_length_for_search in FuzzyMatchSettings".
Definition invalid_minimum_length_for_fuzzy_match : string :=
  "Invalid value provided for minimum_length_for_fuzzy_match in FuzzyMatchSettings".
Definition invalid_percentage_allowed_mismatch : string :=
  "Invalid value provided for percentage_allowed_mismatch in FuzzyMatchSettings".

(** [new FuzzyMatchSettings(a, b, c, d)] *)
Definition new_FuzzyMatchSettings
    (minimum_length_for_search' minimum_length_for_fuzzy_match'
       percentage_allowed_mismatch' : option Z)
    (case_sensitive_match' : option bool) : outcome FuzzyMatchSettings :=
  let min_search :=
    if not_number minimum_length_for_search'
    then default__minimum_length_for_search
    else number_or minimum_length_for_search' 0 in
  let min_fuzzy :=
    if not_number minimum_length_for_fuzzy_match'
    then default__minimum_length_for_fuzzy_match
    else number_or minimum_length_for_fuzzy_match' 0 in
  let percentage :=
    if not_number percentage_allowed_mismatch'
    then default__percentage_allowed_mismatch
    else number_or percentage_allowed_mismatch' 0 in
  let case_sensitive :=
    if not_boolean case_sensitive_match'
    then default__case_sensitive_match
    else boolean_or case_sensitive_match' false in
  if min_search <=? 0 then Throw invalid_minimum_length_for_search
  else if min_fuzzy <=? 0 then Throw invalid_minimum_length_for_fuzzy_match
  else if ((percentage <? 0) || (percentage >? maximum_allowed_mismatch))%bool
  then Throw invalid_percentage_allowed_mismatch
  else Ok (Build_FuzzyMatchSettings min_search min_fuzzy percentage case_sensitive).

(** ** The fuzzy tier: window scan *)

(** The inner [for] loop of one window, from position [i] with the running
    count [count]; the value is the count when the loop is left, by its
    condition or by [break]. *)
Fixpoint for_loop (fuel : nat) (searchString _item : string)
    (left searchLength max_allowed_mismatch_count : Z) (i count : Z)
    : outcome Z :=
  match fuel with
  | O => OutOfFuel
  | S fuel' =>
      if i <? left + searchLength then
        if strict_neq (char_at searchString (i - left)) (char_at _item i) then
          let count' := count + 1 in
          if count' >? max_allowed_mismatch_count then Ok count'
          else for_loop fuel' searchString _item left searchLength
                 max_allowed_mismatch_count (i + 1) count'
        else for_loop fuel' searchString _item left searchLength
               max_allowed_mismatch_count (i + 1) count
      else Ok count
  end.

(** The [while] loop over the windows of one item; the value tells whether
    the item was pushed to the result. *)
Fixpoint while_loop (fuel : nat) (searchString _item : string)
    (searchLength max_allowed_mismatch_count : Z)
    (left current_mismatch_count : Z) : outcome bool :=
  match fuel with
  | O => OutOfFuel
  | S fuel' =>
      if left + searchLength - 1 <? length_Z _item then
        count <- for_loop (S (Z.to_nat searchLength)) searchString _item left
                   searchLength max_allowed_mismatch_count left
                   current_mismatch_count ;;
        if count <=? max_allowed_mismatch_count then Ok true
        else while_loop fuel' searchString _item searchLength
               max_allowed_mismatch_count (left + 1) 0
      else Ok false
  end.

(** The comparison text [_item] of the fuzzy tier. *)
Definition fuzzy_item_text (case_sensitive : bool) (itemProperty : option string)
    (x : item) : string :=
  match x with
  | ItemString s =>
      if negb case_sensitive then toLowerCase s else s
  | ItemObject _ =>
      if negb case_sensitive
      then toLowerCase (ToString (get_property x (property_key itemProperty)))
      else ToString (get_property x (property_key itemProperty))
  end.

(** The [for (const item of items)] loop; [result] is the array built so
    far and [push] appends to it. *)
Fixpoint items_loop (searchString : string) (itemProperty : option string)
    (case_sensitive : bool) (searchLength max_allowed_mismatch_count : Z)
    (items : list item) (result : list item) : outcome (list item) :=
  match items with
  | [] => Ok result
  | x :: rest =>
      let _item := fuzzy_item_text case_sensitive itemProperty x in
      pushed <- while_loop (S (String.length _item)) searchString _item
                  searchLength max_allowed_mismatch_count 0 0 ;;
      items_loop searchString itemProperty case_sensitive searchLength
        max_allowed_mismatch_count rest
        (if pushed : bool then result ++ [x] else result)
  end.

(** ** The entry points *)

Definition usage_error : string :=
  "A string property must be provided to perform fuzzy search on an object".

Definition fuzzySearchByProperty (searchString : string) (items : list item)
    (itemProperty : option string) (searchSettings : option FuzzyMatchSettings)
    : outcome (list item) :=
  if length_Z searchString =? 0 then Ok []
  else
    match items with
    | [] => Ok []
    | first :: _ =>
        if (negb (item_is_string first) &&
            match itemProperty with
            | None => true
            | Some k => negb (typeof_string (get_property first k))
            end)%bool
        then Throw usage_error
        else
          let searchLength := length_Z searchString in
          searchSettings <-
            match searchSettings with
            | None => new_FuzzyMatchSettings None None None None
            | Some s => Ok s
            end ;;
          if searchLength <? minimum_length_for_search searchSettings
          then Ok []
          else if searchLength <? minimum_length_for_fuzzy_match searchSettings
          then
            let key := property_key itemProperty in
            if case_sensitive_match searchSettings then
              let _discarded :=
                if item_is_string first
                then filter (fun x =>
                       includes (ToString_item x) searchString) items
                else items in
              Ok (filter (fun x =>
                    includes (ToString (get_property x key)) searchString)
                    items)
            else
              let _discarded :=
                if item_is_string first
                then filter (fun x =>
                       includes (toLowerCase (ToString_item x))
                         (toLowerCase searchString)) items
                else items in
              Ok (filter (fun x =>
                    includes (toLowerCase (ToString (get_property x key)))
                      (toLowerCase searchString)) items)
          else
            let searchString :=
              if negb (case_sensitive_match searchSettings)
              then toLowerCase searchString else searchString in
            let max_allowed_mismatch_count :=
              (searchLength * percentage_allowed_mismatch searchSettings) / 100 in
            items_loop searchString itemProperty
              (case_sensitive_match searchSettings) searchLength
              max_allowed_mismatch_count items []
    end.

Definition fuzzySearch (searchString : string) (items : list string)
    (searchSettings : option FuzzyMatchSettings) : outcome (list item) :=
  fuzzySearchByProperty searchString (map ItemString items) None searchSettings.

(** ** Notions the specification is phrased in *)

(** The settings a call runs with: the ones passed, or the defaults. *)
Definition default_settings : FuzzyMatchSettings :=
  Build_FuzzyMatchSettings default__minimum_length_for_search
    default__minimum_length_for_fuzzy_match
    default__percentage_allowed_mismatch default__case_sensitive_match.

Definition settings_in_force (searchSettings : option FuzzyMatchSettings)
    : FuzzyMatchSettings :=
  match searchSettings with
  | Some s => s
  | None => default_settings
  end.

(** The invariant of a settings model. *)
Definition settings_invariant (s : FuzzyMatchSettings) : Prop :=
  0 < minimum_length_for_search s /\
  0 < minimum_length_for_fuzzy_match s /\
  0 <= percentage_allowed_mismatch s <= maximum_allowed_mismatch.

(** The other numeric arguments of a construction: absent, or a positive
    number. *)
Definition absent_or_positive (x : option Z) : Prop :=
  match x with
  | None => True
  | Some z => 0 < z
  end.

(** Case folding per settings. *)
Definition case_fold (case_sensitive : bool) (s : string) : string :=
  if case_sensitive then s else toLowerCase s.

(** The comparison text of an item: the item itself when it is a string,
    the designated field (converted to a string) when it is an object. *)
Definition comparison_text (itemProperty : option string) (x : item) : string :=
  match x with
  | ItemString s => s
  | ItemObject _ => ToString (get_property x (property_key itemProperty))
  end.

(** [q] occurs in [text] as a literal contiguous substring. *)
Definition contains_substring (text q : string) : Prop :=
  exists pre post : string, text = (pre ++ q ++ post)%string.

(** The element-type contract, checked on the first element only. *)
Definition first_element_ok (items : list item) (itemProperty : option string)
    : bool :=
  match items with
  | [] => true
  | first :: _ =>
      (item_is_string first ||
       match itemProperty with
       | None => false
       | Some k => typeof_string (get_property first k)
       end)%bool
  end.

(** Number of positions at which the query and a window differ. *)
Fixpoint mismatch_count (q w : string) : nat :=
  match q, w with
  | String a q', String b w' =>
      ((if Ascii.eqb a b then 0 else 1) + mismatch_count q' w')%nat
  | _, _ => 0%nat
  end.

Definition max_mismatch (q : string) (percentage : Z) : Z :=
  (length_Z q * percentage) / 100.

(** Reference scan of the fuzzy tier, after the specification: every
    window of the length of the query, at the offsets [0] to
    [len text - len q], is counted in full; the text is accepted iff the
    count of some window is at most [max]. *)
Definition reference_scan (q text : string) (max : Z) : bool :=
  existsb
    (fun left =>
       Z.of_nat (mismatch_count q (substring left (String.length q) text))
       <=? max)
    (seq 0 (S (String.length text) - String.length q)).

(** The decision of the fuzzy tier on one item, through the reference scan. *)
Definition fuzzy_decision (s : FuzzyMatchSettings) (q : string)
    (itemProperty : option string) (x : item) : bool :=
  reference_scan (case_fold (case_sensitive_match s) q)
    (case_fold (case_sensitive_match s) (comparison_text itemProperty x))
    (max_mismatch q (percentage_allowed_mismatch s)).

(** The text the exact-substring tier compares: always the property read,
    also on a string item. *)
Definition exact_tier_text (itemProperty : option string) (x : item) : string :=
  ToString (get_property x (property_key itemProperty)).

Definition exact_decision (s : FuzzyMatchSettings) (q : string)
    (itemProperty : option string) (x : item) : bool :=
  includes (case_fold (case_sensitive_match s) (exact_tier_text itemProperty x))
    (case_fold (case_sensitive_match s) q).

(** Replace the text of an item by its image under [f]: the string itself,
    or the string value of the designated field of an object. *)
Fixpoint map_field (f : string -> string) (key : string)
    (fields : list (string * value)) : list (string * value) :=
  match fields with
  | [] => []
  | (k, v) :: rest =>
      if String.eqb k key
      then (k, match v with VString t => VString (f t) | _ => v end) :: rest
      else (k, v) :: map_field f key rest
  end.

Definition map_item_text (f : string -> string) (itemProperty : option string)
    (x : item) : item :=
  match x with
  | ItemString s => ItemString (f s)
  | ItemObject fields =>
      ItemObject (map_field f (property_key itemProperty) fields)
  end.

Definition map_outcome {A B : Type} (f : A -> B) (r : outcome A) : outcome B :=
  match r with
  | Ok a => Ok (f a)
  | Throw m => Throw m
  | OutOfFuel => OutOfFuel
  end.

(** Index-based count of the mismatches of the window at [left], over the
    [k] positions from [j] on; this is what the inner loop walks through. *)
Fixpoint count_from (q text : string) (left j k : nat) : nat :=
  match k with
  | O => 0%nat
  | S k' =>
      ((if strict_neq (String.get j q) (String.get (left + j) text)
        then 1 else 0) + count_from q text left (S j) k')%nat
  end.

(** [r] keeps some of the elements of [l], in the order of [l]. *)
Inductive subsequence {A : Type} : list A -> list A -> Prop :=
| subsequence_nil : subsequence [] []
| subsequence_skip (x : A) (r l : list A) :
    subsequence r l -> subsequence r (x :: l)
| subsequence_keep (x : A) (r l : list A) :
    subsequence r l -> subsequence (x :: r) (x :: l).

(** A numeric argument of the constructor that is present and negative. *)
Definition negative_argument (x : option Z) : Prop :=
  match x with
  | Some z => z < 0
  | None => False
  end.

(** * Properties *)

(** ** Strings *)

Lemma length_map_string (f : ascii -> ascii) (s : string) :
  String.length (map_string f s) = String.length s.
Proof. induction s; simpl; congruence. Qed.

Lemma length_case_fold (cs : bool) (s : string) :
  String.length (case_fold cs s) = String.length s.
Proof. destruct cs; simpl; [reflexivity | apply length_map_string]. Qed.

Lemma lower_upper_ascii (c : ascii) :
  lower_ascii (upper_ascii c) = lower_ascii c.
Proof.
  destruct c as [[] [] [] [] [] [] [] []]; reflexivity.
Qed.

Lemma lower_lower_ascii (c : ascii) :
  lower_ascii (lower_ascii c) = lower_ascii c.
Proof.
  destruct c as [[] [] [] [] [] [] [] []]; reflexivity.
Qed.

Lemma prefix_iff (q s : string) :
  String.prefix q s = true <-> exists post, s = (q ++ post)%string.
Proof.
  revert s; induction q as [|a q IH]; intros s.
  - split; [intros _; now exists s | intros _; now destruct s].
  - destruct s as [|b s]; simpl.
    + split; [discriminate | intros [post H]; discriminate].
    + destruct (ascii_dec a b) as [->|Hab].
      * rewrite IH. split; intros [post H]; exists post.
        -- now rewrite H.
        -- now inversion H.
      * split; [discriminate|].
        intros [post H]. inversion H. congruence.
Qed.

Lemma includes_iff (s q : string) :
  includes s q = true <-> contains_substring s q.
Proof.
  unfold contains_substring.
  induction s as [|c s IH]; cbn [includes].
  - rewrite orb_false_r, prefix_iff. split.
    + intros [post H]. now exists EmptyString, post.
    + intros [pre [post H]]. destruct pre; simpl in H.
      * now exists post.
      * discriminate.
  - rewrite orb_true_iff, prefix_iff, IH. split.
    + intros [[post H] | [pre [post H]]].
      * now exists EmptyString, post.
      * exists (String c pre), post. simpl. now rewrite H.
    + intros [pre [post H]]. destruct pre as [|c' pre]; simpl in H.
      * left. now exists post.
      * right. exists pre, post. now inversion H.
Qed.

Lemma get_lt (s : string) (n : nat) :
  (n < String.length s)%nat -> exists c, String.get n s = Some c.
Proof.
  revert n; induction s as [|b s IH]; intros n H; simpl in H; [lia|].
  destruct n as [|n]; simpl; [now exists b | apply IH; lia].
Qed.

Lemma substring_step (text : string) (left n : nat) (c : ascii) :
  String.get left text = Some c ->
  substring left (S n) text = String c (substring (S left) n text).
Proof.
  revert left; induction text as [|b t IH]; intros left H.
  - destruct left; discriminate.
  - destruct left as [|l]; simpl in H.
    + injection H as ->. reflexivity.
    + simpl. rewrite (IH l H). reflexivity.
Qed.

(** ** The window scan *)

Lemma count_from_shift (a : ascii) (q text : string) (left k : nat) :
  forall j, count_from (String a q) text left (S j) k
            = count_from q text (S left) j k.
Proof.
  induction k as [|k IH]; intros j; simpl; [reflexivity|].
  rewrite IH, Nat.add_succ_r. reflexivity.
Qed.

Lemma count_from_window (q text : string) :
  forall left,
    (left + String.length q <= String.length text)%nat ->
    count_from q text left 0 (String.length q)
    = mismatch_count q (substring left (String.length q) text).
Proof.
  induction q as [|a q IH]; intros left H; simpl in *.
  - destruct left, text; reflexivity.
  - destruct (get_lt text left) as [c Hc]; [lia|].
    rewrite Nat.add_0_r, Hc, (substring_step _ _ _ _ Hc).
    rewrite count_from_shift, IH by lia.
    simpl. destruct (Ascii.eqb a c); reflexivity.
Qed.

Lemma for_loop_count (q text : string) (left sl max : Z) :
  0 <= left ->
  forall (k fuel : nat) (i count : Z),
    left <= i -> Z.to_nat (left + sl - i) = k -> (k < fuel)%nat ->
    exists c,
      for_loop fuel q text left sl max i count = Ok c /\
      (c <=? max)
      = (count + Z.of_nat (count_from q text (Z.to_nat left)
                             (Z.to_nat (i - left)) k) <=? max).
Proof.
  intros Hleft. induction k as [|k IH]; intros fuel i count Hi Hk Hfuel;
    (destruct fuel as [|fuel]; [lia|]); simpl.
  - destruct (Z.ltb_spec i (left + sl)); [lia|].
    exists count. split; [reflexivity|]. now rewrite Z.add_0_r.
  - destruct (Z.ltb_spec i (left + sl)); [|lia].
    unfold char_at.
    destruct (Z.ltb_spec (i - left) 0); [lia|].
    destruct (Z.ltb_spec i 0); [lia|].
    replace (Z.to_nat left + Z.to_nat (i - left))%nat with (Z.to_nat i) by lia.
    destruct (IH fuel (i + 1) (count + 1)) as [c1 [E1 B1]]; [lia..|].
    destruct (IH fuel (i + 1) count) as [c0 [E0 B0]]; [lia..|].
    replace (Z.to_nat (i + 1 - left)) with (S (Z.to_nat (i - left))) in * by lia.
    destruct (strict_neq _ _).
    + destruct (Z.gtb_spec (count + 1) max).
      * exists (count + 1). split; [reflexivity|].
        destruct (Z.leb_spec (count + 1) max); [lia|].
        symmetry. apply Z.leb_gt. lia.
      * exists c1. split; [exact E1|]. rewrite B1. f_equal. lia.
    + exists c0. split; [exact E0|]. rewrite B0. f_equal.
Qed.

Lemma while_loop_scan (q text : string) (sl max : Z) :
  forall (n fuel : nat) (left : Z),
    0 <= left -> Z.to_nat (length_Z text - (left + sl - 1)) = n ->
    (n < fuel)%nat ->
    while_loop fuel q text sl max left 0
    = Ok (existsb
            (fun l => Z.of_nat (count_from q text l 0 (Z.to_nat sl)) <=? max)
            (seq (Z.to_nat left) n)).
Proof.
  induction n as [|n IH]; intros fuel left Hleft Hn Hfuel;
    (destruct fuel as [|fuel]; [lia|]); cbn [while_loop seq existsb].
  - destruct (Z.ltb_spec (left + sl - 1) (length_Z text)); [lia|reflexivity].
  - destruct (Z.ltb_spec (left + sl - 1) (length_Z text)); [|lia].
    destruct (for_loop_count q text left sl max Hleft
                (Z.to_nat (left + sl - left)) (S (Z.to_nat sl)) left 0)
      as [c [E B]]; [lia..|].
    replace (Z.to_nat (left - left)) with 0%nat in B by lia.
    replace (Z.to_nat (left + sl - left)) with (Z.to_nat sl) in B by lia.
    rewrite Z.add_0_l in B.
    rewrite E. cbn [bind]. rewrite B.
    destruct (Z.of_nat _ <=? max); [reflexivity|].
    rewrite (IH fuel (left + 1)) by lia.
    replace (Z.to_nat (left + 1)) with (S (Z.to_nat left)) by lia.
    reflexivity.
Qed.

Lemma existsb_ext_in {A : Type} (f g : A -> bool) (l : list A) :
  (forall x, In x l -> f x = g x) -> existsb f l = existsb g l.
Proof.
  induction l as [|a l IH]; intros H; simpl; [reflexivity|].
  rewrite (H a), IH; [reflexivity | | now left].
  intros x Hx. apply H. now right.
Qed.

(** One item: the scan with early exit decides as the reference scan. *)
Lemma scan_item (q text : string) (max : Z) :
  (0 < String.length q)%nat ->
  while_loop (S (String.length text)) q text (length_Z q) max 0 0
  = Ok (reference_scan q text max).
Proof.
  intros Hq. unfold length_Z.
  rewrite (while_loop_scan q text _ max
             (S (String.length text) - String.length q)) by (unfold length_Z; lia).
  f_equal. unfold reference_scan. rewrite Nat2Z.id. simpl (Z.to_nat 0).
  apply existsb_ext_in. intros l Hl. apply in_seq in Hl.
  rewrite count_from_window by lia. reflexivity.
Qed.

Lemma items_loop_filter (q : string) (itemProperty : option string)
    (cs : bool) (max : Z) :
  (0 < String.length q)%nat ->
  forall items acc,
    items_loop q itemProperty cs (length_Z q) max items acc
    = Ok (acc ++ filter (fun x =>
                   reference_scan q (fuzzy_item_text cs itemProperty x) max)
                   items).
Proof.
  intros Hq. induction items as [|x rest IH]; intros acc; cbn [items_loop filter].
  - now rewrite app_nil_r.
  - rewrite scan_item by exact Hq. cbn [bind]. rewrite IH.
    destruct (reference_scan _ _ _); [|reflexivity].
    now rewrite <- app_assoc.
Qed.

Lemma fuzzy_item_text_fold (cs : bool) (itemProperty : option string) (x : item) :
  fuzzy_item_text cs itemProperty x
  = case_fold cs (comparison_text itemProperty x).
Proof. destruct x, cs; reflexivity. Qed.

(** ** The search, tier by tier *)

Lemma default_settings_constructed :
  new_FuzzyMatchSettings None None None None = Ok default_settings.
Proof. reflexivity. Qed.

Lemma max_mismatch_fold (cs : bool) (q : string) (p : Z) :
  length_Z q * p / 100 = max_mismatch q p /\
  length_Z q = length_Z (case_fold cs q).
Proof.
  split; [reflexivity|]. unfold length_Z. now rewrite length_case_fold.
Qed.

(** What a call returns, in terms of the two decisions. *)
Lemma fuzzySearchByProperty_by_tier (q : string) (items : list item)
    (itemProperty : option string) (searchSettings : option FuzzyMatchSettings) :
  fuzzySearchByProperty q items itemProperty searchSettings
  = let s := settings_in_force searchSettings in
    if length_Z q =? 0 then Ok []
    else match items with
         | [] => Ok []
         | _ :: _ =>
             if negb (first_element_ok items itemProperty) then Throw usage_error
             else if length_Z q <? minimum_length_for_search s then Ok []
             else if length_Z q <? minimum_length_for_fuzzy_match s
             then Ok (filter (exact_decision s q itemProperty) items)
             else Ok (filter (fuzzy_decision s q itemProperty) items)
         end.
Proof.
  unfold fuzzySearchByProperty. cbv zeta.
  destruct (length_Z q =? 0) eqn:Hq; [reflexivity|].
  destruct items as [|first rest]; [reflexivity|].
  assert (Hlen : (0 < String.length q)%nat).
  { destruct q; [discriminate Hq | simpl; lia]. }
  replace (negb (item_is_string first) &&
           match itemProperty with
           | Some k => negb (typeof_string (get_property first k))
           | None => true
           end)%bool
    with (negb (first_element_ok (first :: rest) itemProperty))
    by (simpl; destruct (item_is_string first), itemProperty as [k|];
        simpl; try reflexivity; now destruct (typeof_string _)).
  destruct (negb (first_element_ok (first :: rest) itemProperty));
    [reflexivity|].
  replace (match searchSettings with
           | Some s => Ok s
           | None => new_FuzzyMatchSettings None None None None
           end) with (Ok (settings_in_force searchSettings))
    by (now destruct searchSettings).
  cbn [bind].
  destruct (settings_in_force searchSettings) as [ms mf p cs].
  cbn [minimum_length_for_search minimum_length_for_fuzzy_match
       percentage_allowed_mismatch case_sensitive_match].
  destruct (length_Z q <? ms); [reflexivity|].
  destruct (length_Z q <? mf).
  - destruct cs; reflexivity.
  - destruct (max_mismatch_fold cs q p) as [-> Hl].
    replace (if negb cs then toLowerCase q else q) with (case_fold cs q)
      by (now destruct cs).
    rewrite Hl, items_loop_filter
      by (now rewrite length_case_fold).
    cbn [app]. f_equal. apply filter_ext. intros x.
    unfold fuzzy_decision. cbn [case_sensitive_match percentage_allowed_mismatch].
    now rewrite fuzzy_item_text_fold.
Qed.

(** The search is total: the fuel supplied to the loops is enough. *)
Lemma fuzzySearchByProperty_fuel (q : string) (items : list item)
    (itemProperty : option string) (searchSettings : option FuzzyMatchSettings) :
  fuzzySearchByProperty q items itemProperty searchSettings <> OutOfFuel.
Proof.
  rewrite fuzzySearchByProperty_by_tier. cbv zeta.
  destruct (length_Z q =? 0); [discriminate|].
  destruct items; [discriminate|].
  destruct (negb _); [discriminate|].
  destruct (_ <? _); [discriminate|].
  destruct (_ <? _); discriminate.
Qed.

Lemma constructor_establishes_invariant
    (a b c : option Z) (d : option bool) (s : FuzzyMatchSettings) :
  new_FuzzyMatchSettings a b c d = Ok s -> settings_invariant s.
Proof.
  unfold new_FuzzyMatchSettings, settings_invariant. cbv zeta.
  destruct (Z.leb_spec (if not_number a then default__minimum_length_for_search
                        else number_or a 0) 0); [discriminate|].
  destruct (Z.leb_spec (if not_number b
                        then default__minimum_length_for_fuzzy_match
                        else number_or b 0) 0); [discriminate|].
  destruct (Z.ltb_spec (if not_number c
                        then default__percentage_allowed_mismatch
                        else number_or c 0) 0); [discriminate|].
  destruct (Z.gtb_spec (if not_number c
                        then default__percentage_allowed_mismatch
                        else number_or c 0) maximum_allowed_mismatch);
    [discriminate|].
  simpl. intros E. injection E as <-. simpl. lia.
Qed.

Lemma default_settings_invariant : settings_invariant default_settings.
Proof.
  unfold settings_invariant, default_settings; simpl.
  unfold default__minimum_length_for_search,
    default__minimum_length_for_fuzzy_match,
    default__percentage_allowed_mismatch, maximum_allowed_mismatch.
  lia.
Qed.

(** ** Settings construction *)

(** C7.  A falsy numeric argument (zero) and a falsy boolean argument
    (false) are replaced by the default of their field before validation:
    the constructor cannot tell them from an absent argument, so a zero
    never raises the validation error of its own field, and constructing
    with zeros gives the defaults 1, 5, 25 and false. *)
Theorem falsy_arguments_become_defaults :
  (forall b c d,
     new_FuzzyMatchSettings (Some 0) b c d = new_FuzzyMatchSettings None b c d) /\
  (forall a c d,
     new_FuzzyMatchSettings a (Some 0) c d = new_FuzzyMatchSettings a None c d) /\
  (forall a b d,
     new_FuzzyMatchSettings a b (Some 0) d = new_FuzzyMatchSettings a b None d) /\
  (forall a b c,
     new_FuzzyMatchSettings a b c (Some false)
     = new_FuzzyMatchSettings a b c None) /\
  (forall b c d,
     new_FuzzyMatchSettings (Some 0) b c d
     <> Throw invalid_minimum_length_for_search) /\
  (forall a c d,
     new_FuzzyMatchSettings a (Some 0) c d
     <> Throw invalid_minimum_length_for_fuzzy_match) /\
  (forall a b d,
     new_FuzzyMatchSettings a b (Some 0) d
     <> Throw invalid_percentage_allowed_mismatch) /\
  new_FuzzyMatchSettings (Some 0) None None None
  = Ok (Build_FuzzyMatchSettings 1 5 25 false) /\
  new_FuzzyMatchSettings (Some 0) (Some 0) (Some 0) (Some false)
  = Ok (Build_FuzzyMatchSettings 1 5 25 false).
Proof.
  repeat split; intros; try reflexivity; unfold new_FuzzyMatchSettings;
    cbv zeta; cbn [not_number Z.eqb number_or];
    unfold default__minimum_length_for_search,
      default__minimum_length_for_fuzzy_match,
      default__percentage_allowed_mismatch, maximum_allowed_mismatch,
      invalid_minimum_length_for_search,
      invalid_minimum_length_for_fuzzy_match,
      invalid_percentage_allowed_mismatch;
    simpl;
    repeat match goal with
           | |- context [if ?b then _ else _] => destruct b
           end;
    discriminate.
Qed.

(** C8.  With the two minimum lengths absent or valid, a percentage of 51
    raises the configuration error that names
    [percentage_allowed_mismatch], and a percentage of 50 constructs the
    settings, with 50 stored. *)
Theorem percentage_51_raises_50_constructs
    (a b : option Z) (d : option bool) :
  absent_or_positive a -> absent_or_positive b ->
  new_FuzzyMatchSettings a b (Some 51) d
  = Throw "Invalid value provided for percentage_allowed_mismatch in FuzzyMatchSettings"
  /\
  new_FuzzyMatchSettings a b (Some 50) d
  = Ok (Build_FuzzyMatchSettings
          (number_or a default__minimum_length_for_search)
          (number_or b default__minimum_length_for_fuzzy_match)
          50
          (boolean_or d default__case_sensitive_match)).
Proof.
  intros Ha Hb. unfold new_FuzzyMatchSettings. cbv zeta.
  assert (Ea : (if not_number a then default__minimum_length_for_search
                else number_or a 0)
               = number_or a default__minimum_length_for_search).
  { destruct a as [z|]; simpl in *; [|reflexivity].
    destruct (Z.eqb_spec z 0); [lia | reflexivity]. }
  assert (Eb : (if not_number b then default__minimum_length_for_fuzzy_match
                else number_or b 0)
               = number_or b default__minimum_length_for_fuzzy_match).
  { destruct b as [z|]; simpl in *; [|reflexivity].
    destruct (Z.eqb_spec z 0); [lia | reflexivity]. }
  assert (Ed : (if not_boolean d then default__case_sensitive_match
                else boolean_or d false)
               = boolean_or d default__case_sensitive_match).
  { destruct d as [[]|]; reflexivity. }
  rewrite Ea, Eb, Ed.
  assert (Pa : (number_or a default__minimum_length_for_search <=? 0) = false).
  { apply Z.leb_gt. destruct a; simpl in *;
      [assumption | unfold default__minimum_length_for_search; lia]. }
  assert (Pb : (number_or b default__minimum_length_for_fuzzy_match <=? 0)
               = false).
  { apply Z.leb_gt. destruct b; simpl in *;
      [assumption | unfold default__minimum_length_for_fuzzy_match; lia]. }
  rewrite Pa, Pb. split; reflexivity.
Qed.

Lemma percentage_51_raises_50_constructs_witness :
  new_FuzzyMatchSettings (Some 2) None (Some 51) (Some true)
  = Throw "Invalid value provided for percentage_allowed_mismatch in FuzzyMatchSettings"
  /\
  new_FuzzyMatchSettings (Some 2) None (Some 50) (Some true)
  = Ok (Build_FuzzyMatchSettings 2 5 50 true).
Proof.
  apply (percentage_51_raises_50_constructs (Some 2) None (Some true)).
  - simpl. lia.
  - simpl. exact I.
Defined.

(** ** The guards *)

(** C10.  On an empty list of items the search returns the empty list,
    whatever the query, the property selector and the settings: the guard
    on the empty collection runs before the type check of the first
    element, which throws on a non-empty list of objects searched without
    a selector. *)
Theorem empty_items_give_empty_result :
  (forall q itemProperty searchSettings,
     fuzzySearchByProperty q [] itemProperty searchSettings = Ok []) /\
  (forall searchSettings,
     fuzzySearchByProperty "a" [ItemObject []] None searchSettings
     = Throw usage_error).
Proof.
  split.
  - intros q itemProperty searchSettings. unfold fuzzySearchByProperty.
    destruct (length_Z q =? 0); reflexivity.
  - intros searchSettings. reflexivity.
Qed.

(** ** The exact-substring tier *)

Lemma filter_constant {A : Type} (f : A -> bool) (b : bool) (l : list A) :
  (forall x, In x l -> f x = b) -> filter f l = if b then l else [].
Proof.
  induction l as [|a l IH]; intros H; simpl.
  - now destruct b.
  - rewrite (H a) by now left.
    rewrite IH by (intros x Hx; apply H; now right).
    now destruct b.
Qed.

(** C1 (the code departs from it).  In the exact-substring tier the
    filter on the string items themselves is computed and dropped, and the
    items are filtered on [String(x[null])] instead.  With the default
    settings the query "hel" (length 3, between 1 and 5) does not return
    the item "hello", which contains it, and the query "und" returns the
    item "hello", which does not contain it. *)
Theorem exact_tier_ignores_string_items :
  (minimum_length_for_search default_settings <= length_Z "hel"
   < minimum_length_for_fuzzy_match default_settings) /\
  includes (case_fold false (comparison_text None (ItemString "hello")))
    (case_fold false "hel") = true /\
  fuzzySearch "hel" ["hello"] None = Ok [] /\
  includes (case_fold false (comparison_text None (ItemString "hello")))
    (case_fold false "und") = false /\
  fuzzySearch "und" ["hello"] None = Ok [ItemString "hello"].
Proof.
  repeat split; try reflexivity; vm_compute; congruence.
Qed.

(** C2.  With the default settings the query "helo" has length 4, below
    the default [minimum_length_for_fuzzy_match] of 5, so the search on
    "hello", "world", "help" is decided by the exact-substring tier, and
    its result is the empty list. *)
Theorem helo_returns_nothing :
  length_Z "helo" = 4 /\
  minimum_length_for_fuzzy_match default_settings = 5 /\
  (length_Z "helo" <? minimum_length_for_search default_settings) = false /\
  (length_Z "helo" <? minimum_length_for_fuzzy_match default_settings) = true /\
  fuzzySearch "helo" ["hello"; "world"; "help"] None
  = Ok (filter (exact_decision default_settings "helo" None)
          (map ItemString ["hello"; "world"; "help"])) /\
  fuzzySearch "helo" ["hello"; "world"; "help"] None = Ok [].
Proof.
  repeat split; reflexivity.
Qed.

(** C3.  On a non-empty list of plain strings, with a query whose length
    is at least [minimum_length_for_search] and below
    [minimum_length_for_fuzzy_match], [fuzzySearch] returns all the items
    or none: the text compared for every item is [String(item[null])],
    the constant "undefined"; all items are returned when "undefined"
    (case-folded per settings) contains the (case-folded) query, and the
    empty list otherwise. *)
Theorem string_items_all_or_nothing
    (searchSettings : option FuzzyMatchSettings) (q : string)
    (items : list string) :
  let s := settings_in_force searchSettings in
  settings_invariant s ->
  items <> [] ->
  minimum_length_for_search s <= length_Z q < minimum_length_for_fuzzy_match s ->
  (forall str, exact_tier_text None (ItemString str) = "undefined") /\
  (contains_substring (case_fold (case_sensitive_match s) "undefined")
     (case_fold (case_sensitive_match s) q) ->
   fuzzySearch q items searchSettings = Ok (map ItemString items)) /\
  (~ contains_substring (case_fold (case_sensitive_match s) "undefined")
       (case_fold (case_sensitive_match s) q) ->
   fuzzySearch q items searchSettings = Ok []).
Proof.
  intros s [Hs _] Hne [Hlo Hhi].
  assert (E : fuzzySearch q items searchSettings
              = Ok (if includes (case_fold (case_sensitive_match s) "undefined")
                         (case_fold (case_sensitive_match s) q)
                    then map ItemString items else [])).
  { unfold fuzzySearch. rewrite fuzzySearchByProperty_by_tier. cbv zeta.
    fold s.
    destruct (Z.eqb_spec (length_Z q) 0); [lia|].
    destruct items as [|str rest]; [congruence|].
    cbn [map first_element_ok item_is_string orb negb].
    destruct (Z.ltb_spec (length_Z q) (minimum_length_for_search s)); [lia|].
    destruct (Z.ltb_spec (length_Z q) (minimum_length_for_fuzzy_match s));
      [|lia].
    f_equal. apply filter_constant.
    intros x Hx. change (ItemString str :: map ItemString rest)
      with (map ItemString (str :: rest)) in Hx.
    apply in_map_iff in Hx. destruct Hx as [str' [<- _]]. reflexivity. }
  split; [intros str; reflexivity|].
  rewrite E. split; intros H.
  - apply includes_iff in H. now rewrite H.
  - destruct (includes _ _) eqn:Hi; [|reflexivity].
    apply includes_iff in Hi. contradiction.
Qed.

Lemma string_items_all_or_nothing_witness :
  fuzzySearch "fin" ["hello"; "world"] None
  = Ok [ItemString "hello"; ItemString "world"].
Proof.
  apply (string_items_all_or_nothing None "fin" ["hello"; "world"]).
  - exact default_settings_invariant.
  - discriminate.
  - vm_compute. split; congruence.
  - exists "unde", "ed". reflexivity.
Defined.

(** ** The fuzzy tier *)

Lemma length_append (s t : string) :
  String.length (s ++ t) = (String.length s + String.length t)%nat.
Proof. induction s; simpl; congruence. Qed.

Lemma substring_skip (pre t : string) (n : nat) :
  substring (String.length pre) n (pre ++ t) = substring 0 n t.
Proof. induction pre; simpl; [reflexivity | assumption]. Qed.

Lemma substring_prefix (q post : string) :
  substring 0 (String.length q) (q ++ post) = q.
Proof.
  induction q as [|a q IH]; simpl.
  - now destruct post.
  - now rewrite IH.
Qed.

Lemma mismatch_count_same (q : string) : mismatch_count q q = 0%nat.
Proof.
  induction q as [|a q IH]; simpl; [reflexivity|].
  now rewrite Ascii.eqb_refl, IH.
Qed.

Lemma reference_scan_of_contains (q text : string) (max : Z) :
  0 <= max -> contains_substring text q -> reference_scan q text max = true.
Proof.
  intros Hmax [pre [post ->]]. unfold reference_scan.
  apply existsb_exists. exists (String.length pre). split.
  - apply in_seq. rewrite !length_append. lia.
  - rewrite substring_skip, substring_prefix, mismatch_count_same.
    apply Z.leb_le. exact Hmax.
Qed.

Lemma reference_scan_monotone (q text : string) (max1 max2 : Z) :
  max1 <= max2 ->
  reference_scan q text max1 = true -> reference_scan q text max2 = true.
Proof.
  intros Hle H. unfold reference_scan in *.
  apply existsb_exists in H. destruct H as [left [Hin Hc]].
  apply existsb_exists. exists left. split; [exact Hin|].
  apply Z.leb_le in Hc. apply Z.leb_le. lia.
Qed.

Lemma max_mismatch_nonneg (q : string) (p : Z) : 0 <= p -> 0 <= max_mismatch q p.
Proof.
  intros Hp. unfold max_mismatch, length_Z.
  apply Z.div_pos; [|lia]. apply Z.mul_nonneg_nonneg; lia.
Qed.

Lemma max_mismatch_monotone (q : string) (p1 p2 : Z) :
  p1 <= p2 -> max_mismatch q p1 <= max_mismatch q p2.
Proof.
  intros Hp. unfold max_mismatch, length_Z.
  apply Z.div_le_mono; [lia|]. apply Z.mul_le_mono_nonneg_l; lia.
Qed.

(** C4, as it fails.  Settings that the constructor accepts may set
    [minimum_length_for_search] above [minimum_length_for_fuzzy_match]:
    a query between the two has an exact match in "hello" and is answered
    with the empty list by the length gate.  And a list whose first
    element fails the type check makes the call throw, whatever the
    later candidates contain. *)
Lemma exact_match_behind_length_gate :
  (new_FuzzyMatchSettings (Some 10) (Some 5) (Some 25) None
   = Ok (Build_FuzzyMatchSettings 10 5 25 false) /\
   minimum_length_for_fuzzy_match (Build_FuzzyMatchSettings 10 5 25 false)
   <= length_Z "hello" /\
   In (ItemString "hello") [ItemString "hello"] /\
   contains_substring
     (case_fold false (comparison_text None (ItemString "hello")))
     (case_fold false "hello") /\
   fuzzySearchByProperty "hello" [ItemString "hello"] None
     (Some (Build_FuzzyMatchSettings 10 5 25 false)) = Ok []) /\
  (minimum_length_for_fuzzy_match default_settings <= length_Z "hello" /\
   contains_substring
     (case_fold false
        (comparison_text (Some "name")
           (ItemObject [("name", VString "hello")])))
     (case_fold false "hello") /\
   fuzzySearchByProperty "hello"
     [ItemObject [("name", VNumber 5)]; ItemObject [("name", VString "hello")]]
     (Some "name") None = Throw usage_error).
Proof.
  repeat split.
  - vm_compute. congruence.
  - now left.
  - exists "", "". reflexivity.
  - vm_compute. congruence.
  - exists "", "". reflexivity.
Qed.

(** C4, amended.  For a query whose length is at least
    [minimum_length_for_search] and at least
    [minimum_length_for_fuzzy_match], on a list that passes the type
    check of the first element, the search returns a result, and every
    candidate whose (case-folded) comparison text contains the
    (case-folded) query as a contiguous substring is in it. *)
Theorem exact_match_is_returned
    (searchSettings : option FuzzyMatchSettings) (q : string)
    (items : list item) (itemProperty : option string) (x : item) :
  let s := settings_in_force searchSettings in
  settings_invariant s ->
  minimum_length_for_search s <= length_Z q ->
  minimum_length_for_fuzzy_match s <= length_Z q ->
  first_element_ok items itemProperty = true ->
  In x items ->
  contains_substring
    (case_fold (case_sensitive_match s) (comparison_text itemProperty x))
    (case_fold (case_sensitive_match s) q) ->
  exists r,
    fuzzySearchByProperty q items itemProperty searchSettings = Ok r /\
    In x r.
Proof.
  intros s [_ [Hmf [Hp _]]] Hms Hfz Hok Hin Hsub.
  rewrite fuzzySearchByProperty_by_tier. cbv zeta. fold s.
  destruct (Z.eqb_spec (length_Z q) 0); [lia|].
  destruct items as [|first rest]; [contradiction|].
  rewrite Hok. cbn [negb].
  destruct (Z.ltb_spec (length_Z q) (minimum_length_for_search s)); [lia|].
  destruct (Z.ltb_spec (length_Z q) (minimum_length_for_fuzzy_match s)); [lia|].
  eexists. split; [reflexivity|].
  apply filter_In. split; [exact Hin|].
  unfold fuzzy_decision. apply reference_scan_of_contains; [|exact Hsub].
  apply max_mismatch_nonneg. exact Hp.
Qed.

Lemma exact_match_is_returned_witness :
  exists r,
    fuzzySearchByProperty "hello"
      [ItemString "xyz"; ItemObject [("name", VString "Say HELLO")]]
      (Some "name") None = Ok r /\
    In (ItemObject [("name", VString "Say HELLO")]) r.
Proof.
  apply (exact_match_is_returned None "hello"
           [ItemString "xyz"; ItemObject [("name", VString "Say HELLO")]]
           (Some "name") (ItemObject [("name", VString "Say HELLO")])).
  - exact default_settings_invariant.
  - vm_compute. congruence.
  - vm_compute. congruence.
  - reflexivity.
  - right. left. reflexivity.
  - exists "say ", "". reflexivity.
Defined.

(** C5.  In the fuzzy tier (a non-empty query at or above both minimum
    lengths, on a list that passes the type check) the scan with early
    exit decides every item as the reference scan does, which counts
    every position of every window of the length of the query and accepts
    iff the count of some window is at most
    [floor (len(query) * percentage_allowed_mismatch / 100)]; so the
    search returns exactly the items the reference scan accepts. *)
Theorem early_exit_scan_is_reference_scan
    (searchSettings : option FuzzyMatchSettings) (q : string)
    (items : list item) (itemProperty : option string) :
  let s := settings_in_force searchSettings in
  let q' := case_fold (case_sensitive_match s) q in
  let max := length_Z q * percentage_allowed_mismatch s / 100 in
  q <> EmptyString ->
  first_element_ok items itemProperty = true ->
  minimum_length_for_search s <= length_Z q ->
  minimum_length_for_fuzzy_match s <= length_Z q ->
  (forall x,
     let _item := fuzzy_item_text (case_sensitive_match s) itemProperty x in
     while_loop (S (String.length _item)) q' _item (length_Z q) max 0 0
     = Ok (reference_scan q' _item max)) /\
  fuzzySearchByProperty q items itemProperty searchSettings
  = Ok (filter (fun x =>
          reference_scan q'
            (case_fold (case_sensitive_match s) (comparison_text itemProperty x))
            max) items).
Proof.
  intros s q' max Hq Hok Hms Hfz.
  assert (Hlen : (0 < String.length q)%nat).
  { destruct q; [congruence | simpl; lia]. }
  split.
  - intros x _item.
    replace (length_Z q) with (length_Z q')
      by (unfold length_Z, q'; now rewrite length_case_fold).
    apply scan_item. unfold q'. now rewrite length_case_fold.
  - rewrite fuzzySearchByProperty_by_tier. cbv zeta. fold s.
    destruct (Z.eqb_spec (length_Z q) 0) as [E|_].
    { unfold length_Z in E. lia. }
    destruct items as [|first rest]; [reflexivity|].
    rewrite Hok. cbn [negb].
    destruct (Z.ltb_spec (length_Z q) (minimum_length_for_search s)); [lia|].
    destruct (Z.ltb_spec (length_Z q) (minimum_length_for_fuzzy_match s));
      [lia|].
    reflexivity.
Qed.

Lemma early_exit_scan_is_reference_scan_witness :
  fuzzySearchByProperty "hellow"
    [ItemString "hello world"; ItemString "yelp"; ItemString "Mellow"]
    None (Some (Build_FuzzyMatchSettings 1 5 25 false))
  = Ok (filter (fun x =>
          reference_scan "hellow"
            (case_fold false (comparison_text None x)) 1)
          [ItemString "hello world"; ItemString "yelp"; ItemString "Mellow"]).
Proof.
  apply (early_exit_scan_is_reference_scan
           (Some (Build_FuzzyMatchSettings 1 5 25 false)) "hellow"
           [ItemString "hello world"; ItemString "yelp"; ItemString "Mellow"]
           None).
  - discriminate.
  - reflexivity.
  - vm_compute. congruence.
  - vm_compute. congruence.
Defined.

(** C6.  Two settings that differ only in [percentage_allowed_mismatch]:
    with the larger percentage the search throws exactly when it throws
    with the smaller one, and otherwise returns every candidate that the
    smaller one returns. *)
Theorem raising_percentage_keeps_candidates
    (q : string) (items : list item) (itemProperty : option string)
    (min_search min_fuzzy p1 p2 : Z) (cs : bool) :
  p1 <= p2 ->
  match
    fuzzySearchByProperty q items itemProperty
      (Some (Build_FuzzyMatchSettings min_search min_fuzzy p1 cs)),
    fuzzySearchByProperty q items itemProperty
      (Some (Build_FuzzyMatchSettings min_search min_fuzzy p2 cs))
  with
  | Ok r1, Ok r2 => forall x, In x r1 -> In x r2
  | Throw m1, Throw m2 => m1 = m2
  | _, _ => False
  end.
Proof.
  intros Hp. rewrite !fuzzySearchByProperty_by_tier. cbv zeta.
  cbn [settings_in_force minimum_length_for_search
       minimum_length_for_fuzzy_match].
  destruct (length_Z q =? 0); [now intros x Hx|].
  destruct items as [|first rest]; [now intros x Hx|].
  destruct (negb _); [reflexivity|].
  destruct (length_Z q <? min_search); [now intros x Hx|].
  destruct (length_Z q <? min_fuzzy); [now intros x Hx|].
  intros x Hx. apply filter_In in Hx. destruct Hx as [Hin Hd].
  apply filter_In. split; [exact Hin|].
  unfold fuzzy_decision in *.
  cbn [case_sensitive_match percentage_allowed_mismatch] in *.
  apply (reference_scan_monotone _ _ (max_mismatch q p1)); [|exact Hd].
  now apply max_mismatch_monotone.
Qed.

Lemma raising_percentage_keeps_candidates_witness :
  25 <= 40 /\
  fuzzySearchByProperty "hellow"
    [ItemString "hello world"; ItemString "yelp"; ItemString "yallow"] None
    (Some (Build_FuzzyMatchSettings 1 5 25 false))
  = Ok [ItemString "hello world"] /\
  In (ItemString "hello world") [ItemString "hello world"; ItemString "yallow"].
Proof.
  split; [lia|]. split; [reflexivity|].
  apply (raising_percentage_keeps_candidates "hellow"
           [ItemString "hello world"; ItemString "yelp"; ItemString "yallow"]
           None 1 5 25 40 false).
  - lia.
  - left. reflexivity.
Defined.

(** ** Case folding *)

Section CaseMapping.

Variable g : ascii -> ascii.
Hypothesis g_folds : forall c, lower_ascii (g c) = lower_ascii c.

Lemma lower_map_string (s : string) :
  toLowerCase (map_string g s) = toLowerCase s.
Proof.
  unfold toLowerCase. induction s as [|c s IH]; simpl; [reflexivity|].
  now rewrite g_folds, IH.
Qed.

Lemma get_map_string (s : string) :
  forall i, String.get i (map_string g s) = option_map g (String.get i s).
Proof.
  induction s as [|c s IH]; intros i; simpl; [reflexivity|].
  destruct i; [reflexivity | apply IH].
Qed.

Lemma lookup_map_field (key : string) (fields : list (string * value)) :
  lookup (map_field (map_string g) key fields) key
  = match lookup fields key with
    | VString t => VString (map_string g t)
    | v => v
    end.
Proof.
  induction fields as [|[k v] rest IH]; simpl; [reflexivity|].
  destruct (String.eqb k key) eqn:E; simpl; rewrite E;
    [now destruct v | exact IH].
Qed.

Lemma lower_property_map_item (key : string) (x : item) (p : option string) :
  property_key p = key ->
  toLowerCase (ToString (get_property (map_item_text (map_string g) p x) key))
  = toLowerCase (ToString (get_property x key)).
Proof.
  intros Hk. destruct x as [str|fields]; simpl.
  - destruct (String.eqb key "length").
    + unfold length_Z. now rewrite length_map_string.
    + destruct (array_index key) as [i|]; [|reflexivity].
      rewrite get_map_string. destruct (String.get i str); simpl;
        [|reflexivity].
      unfold toLowerCase. simpl. now rewrite g_folds.
  - rewrite Hk, lookup_map_field.
    destruct (lookup fields key); try reflexivity.
    simpl. apply lower_map_string.
Qed.

Lemma lower_comparison_text_map_item (p : option string) (x : item) :
  toLowerCase (comparison_text p (map_item_text (map_string g) p x))
  = toLowerCase (comparison_text p x).
Proof.
  destruct x as [str|fields].
  - simpl. apply lower_map_string.
  - apply (lower_property_map_item (property_key p) (ItemObject fields) p).
    reflexivity.
Qed.

Lemma first_element_ok_map_item (p : option string) (items : list item) :
  first_element_ok (map (map_item_text (map_string g) p) items) p
  = first_element_ok items p.
Proof.
  destruct items as [|[str|fields] rest]; simpl; try reflexivity.
  destruct p as [k|]; [|reflexivity].
  simpl. rewrite lookup_map_field. now destruct (lookup fields k).
Qed.

(** With case-insensitive settings, applying [g] to every character of
    the query, or of the text of every item, changes no decision. *)
Lemma search_invariant_under_case_mapping
    (searchSettings : option FuzzyMatchSettings) (q : string)
    (items : list item) (p : option string) :
  case_sensitive_match (settings_in_force searchSettings) = false ->
  fuzzySearchByProperty (map_string g q) items p searchSettings
  = fuzzySearchByProperty q items p searchSettings /\
  fuzzySearchByProperty q (map (map_item_text (map_string g) p) items) p
    searchSettings
  = map_outcome (map (map_item_text (map_string g) p))
      (fuzzySearchByProperty q items p searchSettings).
Proof.
  intros Hcs. rewrite !fuzzySearchByProperty_by_tier. cbv zeta.
  assert (Hl : length_Z (map_string g q) = length_Z q)
    by (unfold length_Z; now rewrite length_map_string).
  rewrite Hl. split.
  - destruct (length_Z q =? 0); [reflexivity|].
    destruct items as [|first rest]; [reflexivity|].
    destruct (negb _); [reflexivity|].
    destruct (_ <? _); [reflexivity|].
    destruct (_ <? _); f_equal; apply filter_ext; intros x.
    + unfold exact_decision. rewrite Hcs. simpl. now rewrite lower_map_string.
    + unfold fuzzy_decision, max_mismatch. rewrite Hcs, Hl. simpl.
      now rewrite lower_map_string.
  - destruct (length_Z q =? 0); [reflexivity|].
    destruct items as [|first rest]; [reflexivity|].
    change (map_item_text (map_string g) p first
            :: map (map_item_text (map_string g) p) rest)
      with (map (map_item_text (map_string g) p) (first :: rest)).
    rewrite first_element_ok_map_item.
    cbn [map]. destruct (negb _); [reflexivity|].
    destruct (_ <? _); [reflexivity|].
    change (map_item_text (map_string g) p first
            :: map (map_item_text (map_string g) p) rest)
      with (map (map_item_text (map_string g) p) (first :: rest)).
    destruct (_ <? _); cbn [map_outcome]; f_equal;
      rewrite filter_map_swap; f_equal; apply filter_ext; intros x.
    + unfold exact_decision, exact_tier_text. rewrite Hcs. simpl.
      now rewrite (lower_property_map_item (property_key p) x p).
    + unfold fuzzy_decision. rewrite Hcs. simpl.
      now rewrite lower_comparison_text_map_item.
Qed.

End CaseMapping.

Lemma toUpperCase_ascii (s : string) :
  ascii_text s = true -> toUpperCase s = map_string upper_ascii s.
Proof.
  induction s as [|c s IH]; simpl; [reflexivity|].
  intros H. apply andb_prop in H. destruct H as [Hc Hs].
  rewrite (IH Hs). unfold upper_chars.
  destruct (Ascii.eqb_spec c sharp_s) as [->|]; [discriminate Hc | reflexivity].
Qed.

Lemma map_field_ext (f g : string -> string) (key : string)
    (fields : list (string * value)) :
  (forall t, lookup fields key = VString t -> f t = g t) ->
  map_field f key fields = map_field g key fields.
Proof.
  induction fields as [|[k v] rest IH]; intros H; simpl in *; [reflexivity|].
  destruct (String.eqb k key).
  - destruct v; try reflexivity. now rewrite (H s).
  - now rewrite IH.
Qed.

Lemma map_item_text_upper_ascii (p : option string) (x : item) :
  ascii_text (comparison_text p x) = true ->
  map_item_text toUpperCase p x = map_item_text (map_string upper_ascii) p x.
Proof.
  intros H. destruct x as [str|fields]; simpl in *.
  - now rewrite toUpperCase_ascii.
  - f_equal. apply map_field_ext. intros t Ht. rewrite Ht in H.
    now apply toUpperCase_ascii.
Qed.

Lemma map_upper_ascii_items (p : option string) (items r : list item) :
  Forall (fun x => ascii_text (comparison_text p x) = true) items ->
  (forall x, In x r -> In x items) ->
  map (map_item_text toUpperCase p) r
  = map (map_item_text (map_string upper_ascii) p) r.
Proof.
  intros H Hr. apply map_ext_in. intros x Hx.
  apply map_item_text_upper_ascii.
  rewrite Forall_forall in H. apply H, Hr, Hx.
Qed.

Lemma map_outcome_upper_ascii (q : string) (items : list item)
    (p : option string) (searchSettings : option FuzzyMatchSettings) :
  Forall (fun x => ascii_text (comparison_text p x) = true) items ->
  map_outcome (map (map_item_text toUpperCase p))
    (fuzzySearchByProperty q items p searchSettings)
  = map_outcome (map (map_item_text (map_string upper_ascii) p))
      (fuzzySearchByProperty q items p searchSettings).
Proof.
  intros H. rewrite fuzzySearchByProperty_by_tier. cbv zeta.
  destruct (length_Z q =? 0); [reflexivity|].
  destruct items as [|first rest]; [reflexivity|].
  destruct (negb _); [reflexivity|].
  destruct (_ <? _); [reflexivity|].
  destruct (_ <? _); cbn [map_outcome]; f_equal;
    apply (map_upper_ascii_items p (first :: rest)); try exact H;
    intros x Hx; apply filter_In in Hx; tauto.
Qed.

(** C9, as it fails.  Upper-casing changes the length of a text with a
    sharp s: "stra(sharp s)e" becomes "STRASSE".  With the default,
    case-insensitive settings the query "stra(sharp s)e" returns the item
    "stra(sharp s)e"; the upper-cased query does not return it, and the
    query does not return the upper-cased item. *)
Lemma upper_casing_sharp_s_changes_result :
  case_sensitive_match (settings_in_force None) = false /\
  toUpperCase ("stra" ++ String sharp_s "e") = "STRASSE" /\
  fuzzySearchByProperty ("stra" ++ String sharp_s "e")
    [ItemString ("stra" ++ String sharp_s "e")] None None
  = Ok [ItemString ("stra" ++ String sharp_s "e")] /\
  fuzzySearchByProperty (toUpperCase ("stra" ++ String sharp_s "e"))
    [ItemString ("stra" ++ String sharp_s "e")] None None
  = Ok [] /\
  fuzzySearchByProperty ("stra" ++ String sharp_s "e")
    (map (map_item_text toUpperCase None)
       [ItemString ("stra" ++ String sharp_s "e")]) None None
  = Ok [].
Proof.
  repeat split.
Qed.

(** C9, amended.  When [case_sensitive_match] is false and the query is
    ASCII text, the search returns the same result for the upper-cased
    and for the lower-cased query as for the query itself; and when the
    comparison texts of the items are ASCII text, on the list whose items
    have their text upper-cased (or lower-cased) the search throws exactly
    as on the original list, and otherwise returns the items at the same
    positions, the decision on every candidate being unchanged. *)
Theorem case_insensitive_search_ignores_case
    (searchSettings : option FuzzyMatchSettings) (q : string)
    (items : list item) (itemProperty : option string) :
  case_sensitive_match (settings_in_force searchSettings) = false ->
  ascii_text q = true ->
  Forall (fun x => ascii_text (comparison_text itemProperty x) = true) items ->
  (fuzzySearchByProperty (toUpperCase q) items itemProperty searchSettings
   = fuzzySearchByProperty q items itemProperty searchSettings /\
   fuzzySearchByProperty (toLowerCase q) items itemProperty searchSettings
   = fuzzySearchByProperty q items itemProperty searchSettings) /\
  (fuzzySearchByProperty q
     (map (map_item_text toUpperCase itemProperty) items) itemProperty
     searchSettings
   = map_outcome (map (map_item_text toUpperCase itemProperty))
       (fuzzySearchByProperty q items itemProperty searchSettings) /\
   fuzzySearchByProperty q
     (map (map_item_text toLowerCase itemProperty) items) itemProperty
     searchSettings
   = map_outcome (map (map_item_text toLowerCase itemProperty))
       (fuzzySearchByProperty q items itemProperty searchSettings)).
Proof.
  intros Hcs Hq Hitems.
  destruct (search_invariant_under_case_mapping upper_ascii lower_upper_ascii
              searchSettings q items itemProperty Hcs) as [Uq Ui].
  destruct (search_invariant_under_case_mapping lower_ascii lower_lower_ascii
              searchSettings q items itemProperty Hcs) as [Lq Li].
  rewrite (toUpperCase_ascii q Hq).
  rewrite (map_upper_ascii_items itemProperty items items Hitems)
    by (intros x Hx; exact Hx).
  rewrite (map_outcome_upper_ascii q items itemProperty searchSettings Hitems).
  repeat split; assumption.
Qed.

Lemma case_insensitive_search_ignores_case_witness :
  fuzzySearchByProperty "hellow"
    (map (map_item_text toUpperCase (Some "name"))
       [ItemObject [("name", VString "Hello World")];
        ItemObject [("name", VString "yelp")]])
    (Some "name") None
  = map_outcome (map (map_item_text toUpperCase (Some "name")))
      (fuzzySearchByProperty "hellow"
         [ItemObject [("name", VString "Hello World")];
          ItemObject [("name", VString "yelp")]]
         (Some "name") None).
Proof.
  apply (case_insensitive_search_ignores_case None "hellow"
           [ItemObject [("name", VString "Hello World")];
            ItemObject [("name", VString "yelp")]]
           (Some "name")).
  - reflexivity.
  - reflexivity.
  - repeat constructor.
Defined.

(** * Further properties of the code *)

(** ** The constructor *)

Lemma effective_argument_nonpositive (x : option Z) (d : Z) :
  0 < d ->
  ((if not_number x then d else number_or x 0) <=? 0) = true
  <-> negative_argument x.
Proof.
  intros Hd. rewrite Z.leb_le. destruct x as [z|]; simpl.
  - destruct (Z.eqb_spec z 0); lia.
  - lia.
Qed.

(** X1.  Settings that the constructor returns have both minimum lengths
    above zero and a percentage above zero and at most 50: the percentage
    is never zero, because a zero argument has been replaced by the
    default before the range is checked. *)
Theorem constructed_settings_are_valid
    (a b c : option Z) (d : option bool) (s : FuzzyMatchSettings) :
  new_FuzzyMatchSettings a b c d = Ok s ->
  0 < minimum_length_for_search s /\
  0 < minimum_length_for_fuzzy_match s /\
  percentage_allowed_mismatch s <> 0 /\
  0 < percentage_allowed_mismatch s <= 50.
Proof.
  intros E. destruct (constructor_establishes_invariant a b c d s E)
    as [H1 [H2 [H3 H4]]].
  assert (Hnz : percentage_allowed_mismatch s <> 0).
  { revert E. unfold new_FuzzyMatchSettings. cbv zeta.
    repeat match goal with
           | |- context [if ?t <=? 0 then _ else _] => destruct (t <=? 0)
           end; try discriminate.
    destruct (_ || _)%bool; [discriminate|].
    intros E. injection E as <-. simpl.
    destruct c as [z|]; simpl.
    - destruct (Z.eqb_spec z 0);
        [unfold default__percentage_allowed_mismatch; lia | assumption].
    - unfold default__percentage_allowed_mismatch. lia. }
  unfold maximum_allowed_mismatch in H4.
  repeat split; try assumption; lia.
Qed.

Lemma constructed_settings_are_valid_witness :
  0 < 3 /\ 0 < 7 /\ 25 <> 0 /\ 0 < 25 <= 50.
Proof.
  exact (constructed_settings_are_valid (Some 3) (Some 7) (Some 0) None
           (Build_FuzzyMatchSettings 3 7 25 false) eq_refl).
Defined.

(** X2.  The validations run in the order of the fields and the first one that
    fails decides the error: the error names [minimum_length_for_search]
    exactly when that argument is negative; it names
    [minimum_length_for_fuzzy_match] exactly when the first argument is
    not negative and the second is; it names [percentage_allowed_mismatch]
    exactly when neither length is negative and the percentage is
    negative or above 50. *)
Theorem constructor_errors
    (a b c : option Z) (d : option bool) :
  (new_FuzzyMatchSettings a b c d = Throw invalid_minimum_length_for_search
   <-> negative_argument a) /\
  (new_FuzzyMatchSettings a b c d = Throw invalid_minimum_length_for_fuzzy_match
   <-> ~ negative_argument a /\ negative_argument b) /\
  (new_FuzzyMatchSettings a b c d = Throw invalid_percentage_allowed_mismatch
   <-> ~ negative_argument a /\ ~ negative_argument b /\
       exists z, c = Some z /\ (z < 0 \/ 50 < z)).
Proof.
  assert (Ha := effective_argument_nonpositive a
                  default__minimum_length_for_search eq_refl).
  assert (Hb := effective_argument_nonpositive b
                  default__minimum_length_for_fuzzy_match eq_refl).
  assert (Hc : (((if not_number c then default__percentage_allowed_mismatch
                  else number_or c 0) <? 0)
                || ((if not_number c then default__percentage_allowed_mismatch
                     else number_or c 0) >? maximum_allowed_mismatch))%bool
               = true
               <-> exists z, c = Some z /\ (z < 0 \/ 50 < z)).
  { rewrite orb_true_iff, Z.ltb_lt, Z.gtb_gt.
    unfold default__percentage_allowed_mismatch, maximum_allowed_mismatch.
    destruct c as [z|]; simpl.
    - destruct (Z.eqb_spec z 0); split.
      + lia.
      + intros [z' [E H]]. injection E as <-. lia.
      + intros H. exists z. split; [reflexivity | lia].
      + intros [z' [E H]]. injection E as <-. lia.
    - split; [lia | intros [z [E _]]; discriminate]. }
  unfold new_FuzzyMatchSettings. cbv zeta.
  unfold invalid_minimum_length_for_search,
    invalid_minimum_length_for_fuzzy_match,
    invalid_percentage_allowed_mismatch.
  destruct (_ <=? 0) eqn:Ea in |- *.
  - apply Ha in Ea.
    repeat split; try discriminate; try tauto.
  - assert (Na : ~ negative_argument a)
      by (intros N; apply Ha in N; congruence).
    destruct (_ <=? 0) eqn:Eb in |- *.
    + apply Hb in Eb. repeat split; try discriminate; try tauto.
    + assert (Nb : ~ negative_argument b)
        by (intros N; apply Hb in N; congruence).
      destruct (_ || _)%bool eqn:Ec in |- *.
      * apply Hc in Ec. repeat split; try discriminate; try tauto.
      * assert (Nc : ~ exists z, c = Some z /\ (z < 0 \/ 50 < z))
          by (intros N; apply Hc in N; congruence).
        repeat split; try discriminate; try tauto.
Qed.

(** X3.  Arguments in range are stored as they are given. *)
Theorem valid_arguments_are_stored (a b c : Z) (d : bool) :
  0 < a -> 0 < b -> 1 <= c <= 50 ->
  new_FuzzyMatchSettings (Some a) (Some b) (Some c) (Some d)
  = Ok (Build_FuzzyMatchSettings a b c d).
Proof.
  intros Ha Hb Hc. unfold new_FuzzyMatchSettings, maximum_allowed_mismatch.
  cbv zeta. simpl.
  destruct (Z.eqb_spec a 0); [lia|].
  destruct (Z.eqb_spec b 0); [lia|].
  destruct (Z.eqb_spec c 0); [lia|].
  destruct (Z.leb_spec a 0); [lia|].
  destruct (Z.leb_spec b 0); [lia|].
  destruct (Z.ltb_spec c 0); [lia|].
  destruct (Z.gtb_spec c 50); [lia|].
  simpl. now destruct d.
Qed.

Lemma valid_arguments_are_stored_witness :
  new_FuzzyMatchSettings (Some 2) (Some 4) (Some 10) (Some true)
  = Ok (Build_FuzzyMatchSettings 2 4 10 true).
Proof.
  apply (valid_arguments_are_stored 2 4 10 true); lia.
Defined.

(** ** What a search returns *)

Lemma filter_subsequence {A : Type} (f : A -> bool) (l : list A) :
  subsequence (filter f l) l.
Proof.
  induction l as [|a l IH]; simpl; [constructor|].
  destruct (f a); constructor; exact IH.
Qed.

Lemma subsequence_map {A B : Type} (h : A -> B) (r l : list A) :
  subsequence r l -> subsequence (map h r) (map h l).
Proof. induction 1; simpl; constructor; assumption. Qed.

(** X4.  On a list of strings and plain objects whose first element
    passes the type check, a call returns a list that keeps some of the
    items, in their order and as they were passed. *)
Theorem search_returns_subsequence
    (q : string) (items : list item) (itemProperty : option string)
    (searchSettings : option FuzzyMatchSettings) :
  first_element_ok items itemProperty = true ->
  exists r,
    fuzzySearchByProperty q items itemProperty searchSettings = Ok r /\
    subsequence r items.
Proof.
  intros Hok. rewrite fuzzySearchByProperty_by_tier. cbv zeta.
  assert (Hnil : forall l : list item, subsequence [] l)
    by (induction l; constructor; assumption).
  destruct (length_Z q =? 0); [now exists []|].
  destruct items as [|first rest]; [now exists []|].
  rewrite Hok. cbn [negb].
  destruct (_ <? _); [now exists []|].
  destruct (_ <? _); (eexists; split; [reflexivity | apply filter_subsequence]).
Qed.

Lemma search_returns_subsequence_witness :
  exists r,
    fuzzySearchByProperty "hellow"
      [ItemString "help"; ItemString "hello world"; ItemString "Mellow"]
      None None = Ok r /\
    subsequence r
      [ItemString "help"; ItemString "hello world"; ItemString "Mellow"].
Proof.
  apply (search_returns_subsequence "hellow"
           [ItemString "help"; ItemString "hello world"; ItemString "Mellow"]
           None None).
  reflexivity.
Defined.


(** X6.  The length gate: on a list that passes the type check, a query
    shorter than [minimum_length_for_search] gets the empty list, whatever
    the items contain. *)
Theorem short_query_returns_nothing
    (q : string) (items : list item) (itemProperty : option string)
    (searchSettings : option FuzzyMatchSettings) :
  first_element_ok items itemProperty = true ->
  length_Z q < minimum_length_for_search (settings_in_force searchSettings) ->
  fuzzySearchByProperty q items itemProperty searchSettings = Ok [].
Proof.
  intros Hok Hlt. rewrite fuzzySearchByProperty_by_tier. cbv zeta.
  destruct (length_Z q =? 0); [reflexivity|].
  destruct items; [reflexivity|].
  rewrite Hok. cbn [negb].
  destruct (Z.ltb_spec (length_Z q)
              (minimum_length_for_search (settings_in_force searchSettings)));
    [reflexivity | lia].
Qed.

Lemma short_query_returns_nothing_witness :
  fuzzySearchByProperty "he" [ItemString "hello"; ItemString "he"] None
    (Some (Build_FuzzyMatchSettings 3 5 25 false)) = Ok [].
Proof.
  apply (short_query_returns_nothing "he"
           [ItemString "hello"; ItemString "he"] None
           (Some (Build_FuzzyMatchSettings 3 5 25 false))).
  - reflexivity.
  - vm_compute. reflexivity.
Defined.

(** X7.  [fuzzySearch] never throws: on a list of strings it returns some of
    the strings passed, in their order. *)
Theorem fuzzySearch_returns_strings
    (q : string) (items : list string)
    (searchSettings : option FuzzyMatchSettings) :
  exists kept,
    fuzzySearch q items searchSettings = Ok (map ItemString kept) /\
    subsequence kept items.
Proof.
  unfold fuzzySearch. rewrite fuzzySearchByProperty_by_tier. cbv zeta.
  assert (Hnil : exists kept : list string,
             Ok [] = Ok (map ItemString kept) /\ subsequence kept items).
  { exists (filter (fun _ => false) items).
    split; [|apply filter_subsequence].
    f_equal. induction items; simpl; congruence. }
  assert (Hf : forall f, exists kept : list string,
             Ok (filter f (map ItemString items)) = Ok (map ItemString kept)
             /\ subsequence kept items).
  { intros f. exists (filter (fun x => f (ItemString x)) items).
    split; [|apply filter_subsequence].
    now rewrite filter_map_swap. }
  destruct (length_Z q =? 0); [exact Hnil|].
  destruct (map ItemString items) as [|first rest] eqn:E; [exact Hnil|].
  assert (Hok : first_element_ok (first :: rest) None = true).
  { destruct items as [|str strs]; [discriminate|].
    simpl in E. injection E as <- _. reflexivity. }
  rewrite Hok. cbn [negb].
  destruct (_ <? _); [exact Hnil|].
  destruct (_ <? _); apply Hf.
Qed.

(** ** More on the fuzzy tier *)

Lemma substring_length (text : string) :
  forall left n,
    (left + n <= String.length text)%nat ->
    String.length (substring left n text) = n.
Proof.
  induction text as [|c t IH]; intros left n H; simpl in H.
  - assert (left = 0%nat) by lia. assert (n = 0%nat) by lia. now subst.
  - destruct left as [|l]; simpl.
    + destruct n as [|n]; simpl; [reflexivity|].
      rewrite (IH 0%nat n) by lia. reflexivity.
    + apply IH. lia.
Qed.

Lemma substring_decompose (text : string) :
  forall left n,
    (left + n <= String.length text)%nat ->
    exists pre post, text = (pre ++ substring left n text ++ post)%string.
Proof.
  induction text as [|c t IH]; intros left n H; simpl in H.
  - assert (left = 0%nat) by lia. assert (n = 0%nat) by lia. subst.
    now exists EmptyString, EmptyString.
  - destruct left as [|l].
    + destruct n as [|n].
      * exists EmptyString, (String c t). reflexivity.
      * destruct (IH 0%nat n) as [pre [post E]]; [lia|].
        assert (Hl := substring_length t 0 n ltac:(lia)).
        exists EmptyString. simpl.
        exists (substring n (String.length t - n) t).
        f_equal. clear - H. revert n H.
        induction t as [|b t IHt]; intros n H; simpl in H.
        -- assert (n = 0%nat) by lia. now subst.
        -- destruct n as [|n]; simpl.
           ++ f_equal. clear. induction t; simpl; congruence.
           ++ f_equal. apply IHt. lia.
    + destruct (IH l n) as [pre [post E]]; [lia|].
      exists (String c pre), post. simpl. now rewrite <- E.
Qed.

Lemma mismatch_count_zero (q : string) :
  forall w, String.length w = String.length q ->
            mismatch_count q w = 0%nat -> w = q.
Proof.
  induction q as [|a q IH]; intros [|b w] Hl Hm; simpl in *;
    try discriminate; try reflexivity.
  destruct (Ascii.eqb_spec a b) as [->|]; [|discriminate].
  f_equal. apply IH; [lia | exact Hm].
Qed.

(** With a bound of zero the reference scan is the substring test. *)
Lemma reference_scan_zero (q text : string) :
  reference_scan q text 0 = includes text q.
Proof.
  destruct (includes text q) eqn:Hi.
  - apply reference_scan_of_contains; [lia|]. now apply includes_iff.
  - destruct (reference_scan q text 0) eqn:Hr; [|reflexivity].
    rewrite <- Hi. symmetry. apply includes_iff.
    unfold reference_scan in Hr. apply existsb_exists in Hr.
    destruct Hr as [left [Hin Hc]]. apply in_seq in Hin.
    apply Z.leb_le in Hc.
    assert (Hfit : (left + String.length q <= String.length text)%nat) by lia.
    destruct (substring_decompose text left (String.length q) Hfit)
      as [pre [post E]].
    rewrite (mismatch_count_zero q (substring left (String.length q) text))
      in E; [now exists pre, post | now apply substring_length | lia].
Qed.

(** X8.  In the fuzzy tier no item is returned whose case-folded text,
    the text the windows slide over, is shorter than the query: no window
    fits. *)
Theorem fuzzy_tier_needs_room
    (q : string) (items : list item) (itemProperty : option string)
    (searchSettings : option FuzzyMatchSettings) (r : list item) (x : item) :
  let s := settings_in_force searchSettings in
  minimum_length_for_fuzzy_match s <= length_Z q ->
  fuzzySearchByProperty q items itemProperty searchSettings = Ok r ->
  In x r ->
  length_Z q
  <= length_Z (case_fold (case_sensitive_match s)
                 (comparison_text itemProperty x)).
Proof.
  intros s Hfz. rewrite fuzzySearchByProperty_by_tier. cbv zeta. fold s.
  destruct (length_Z q =? 0); [intros E; injection E as <-; contradiction|].
  destruct items as [|first rest];
    [intros E; injection E as <-; contradiction|].
  destruct (negb _); [discriminate|].
  destruct (_ <? _); [intros E; injection E as <-; contradiction|].
  destruct (Z.ltb_spec (length_Z q) (minimum_length_for_fuzzy_match s)); [lia|].
  generalize (first :: rest). intros l E Hin.
  injection E as <-. apply filter_In in Hin.
  destruct Hin as [_ Hd]. unfold fuzzy_decision, reference_scan in Hd.
  apply existsb_exists in Hd. destruct Hd as [left [Hl _]].
  apply in_seq in Hl. rewrite (length_case_fold _ q) in Hl.
  unfold length_Z. lia.
Qed.

Lemma fuzzy_tier_needs_room_witness :
  length_Z "hellow"
  <= length_Z (case_fold false
                 (comparison_text None (ItemString "hello world"))).
Proof.
  apply (fuzzy_tier_needs_room "hellow"
           [ItemString "hello world"; ItemString "help"] None None
           [ItemString "hello world"] (ItemString "hello world")).
  - vm_compute. congruence.
  - reflexivity.
  - left. reflexivity.
Defined.

(** X9.  When [len(query) * percentage_allowed_mismatch] is below 100 the
    bound on the mismatches is zero; for a query whose case-folded form
    has the length of the query, the fuzzy tier then returns exactly the
    items whose (case-folded) text contains the (case-folded) query: with
    the default 25 percent this is every such query of up to three
    characters that reaches the tier. *)
Theorem fuzzy_tier_with_zero_bound
    (q : string) (items : list item) (itemProperty : option string)
    (searchSettings : option FuzzyMatchSettings) :
  let s := settings_in_force searchSettings in
  q <> EmptyString ->
  String.length (case_fold (case_sensitive_match s) q) = String.length q ->
  first_element_ok items itemProperty = true ->
  minimum_length_for_search s <= length_Z q ->
  minimum_length_for_fuzzy_match s <= length_Z q ->
  0 <= percentage_allowed_mismatch s ->
  length_Z q * percentage_allowed_mismatch s < 100 ->
  fuzzySearchByProperty q items itemProperty searchSettings
  = Ok (filter (fun x =>
          includes
            (case_fold (case_sensitive_match s) (comparison_text itemProperty x))
            (case_fold (case_sensitive_match s) q)) items).
Proof.
  intros s Hq _ Hok Hms Hfz Hp Hlt.
  rewrite fuzzySearchByProperty_by_tier. cbv zeta. fold s.
  destruct (Z.eqb_spec (length_Z q) 0) as [E|_].
  { destruct q; [congruence | unfold length_Z in E; simpl in E; lia]. }
  destruct items as [|first rest]; [reflexivity|].
  rewrite Hok. cbn [negb].
  destruct (Z.ltb_spec (length_Z q) (minimum_length_for_search s)); [lia|].
  destruct (Z.ltb_spec (length_Z q) (minimum_length_for_fuzzy_match s)); [lia|].
  f_equal. apply filter_ext. intros x. unfold fuzzy_decision.
  replace (max_mismatch q (percentage_allowed_mismatch s)) with 0.
  - apply reference_scan_zero.
  - unfold max_mismatch. symmetry. apply Z.div_small.
    split; [|exact Hlt]. apply Z.mul_nonneg_nonneg; [unfold length_Z; lia | lia].
Qed.

Lemma fuzzy_tier_with_zero_bound_witness :
  fuzzySearchByProperty "hel" [ItemString "Hello"; ItemString "help"; ItemString "hal"]
    None (Some (Build_FuzzyMatchSettings 1 2 25 false))
  = Ok [ItemString "Hello"; ItemString "help"].
Proof.
  apply (fuzzy_tier_with_zero_bound "hel"
           [ItemString "Hello"; ItemString "help"; ItemString "hal"] None
           (Some (Build_FuzzyMatchSettings 1 2 25 false))).
  - discriminate.
  - reflexivity.
  - reflexivity.
  - vm_compute. congruence.
  - vm_compute. congruence.
  - vm_compute. congruence.
  - vm_compute. reflexivity.
Defined.

(** X10.  With settings in the valid range, an item returned by the fuzzy tier
    has a window that differs from the query in at most half of its
    positions. *)
Theorem fuzzy_match_agrees_on_half
    (q : string) (items : list item) (itemProperty : option string)
    (searchSettings : option FuzzyMatchSettings) (r : list item) (x : item) :
  let s := settings_in_force searchSettings in
  let q' := case_fold (case_sensitive_match s) q in
  let text := case_fold (case_sensitive_match s)
                (comparison_text itemProperty x) in
  percentage_allowed_mismatch s <= 50 ->
  minimum_length_for_fuzzy_match s <= length_Z q ->
  fuzzySearchByProperty q items itemProperty searchSettings = Ok r ->
  In x r ->
  exists left,
    (left + String.length q' <= String.length text)%nat /\
    (2 * mismatch_count q' (substring left (String.length q') text)
     <= String.length q')%nat.
Proof.
  intros s q' text Hp Hfz. rewrite fuzzySearchByProperty_by_tier. cbv zeta.
  fold s.
  destruct (length_Z q =? 0); [intros E; injection E as <-; contradiction|].
  destruct items as [|first rest];
    [intros E; injection E as <-; contradiction|].
  destruct (negb _); [discriminate|].
  destruct (_ <? _); [intros E; injection E as <-; contradiction|].
  destruct (Z.ltb_spec (length_Z q) (minimum_length_for_fuzzy_match s)); [lia|].
  generalize (first :: rest). intros l E Hin.
  injection E as <-. apply filter_In in Hin.
  destruct Hin as [_ Hd]. unfold fuzzy_decision, reference_scan in Hd.
  fold q' text in Hd.
  apply existsb_exists in Hd. destruct Hd as [left [Hl Hc]].
  apply in_seq in Hl. apply Z.leb_le in Hc.
  exists left. split; [lia|].
  assert (Hm : 2 * max_mismatch q (percentage_allowed_mismatch s) <= length_Z q).
  { unfold max_mismatch.
    assert (length_Z q * percentage_allowed_mismatch s <= length_Z q * 50)
      by (apply Z.mul_le_mono_nonneg_l; [unfold length_Z; lia | exact Hp]).
    assert (length_Z q * percentage_allowed_mismatch s / 100
            <= length_Z q * 50 / 100) by (apply Z.div_le_mono; lia).
    assert (2 * (length_Z q * 50 / 100) <= length_Z q); [|lia].
    replace (length_Z q * 50) with (length_Z q * 1 * 50) by lia.
    replace 100 with (2 * 50) by reflexivity.
    rewrite Z.div_mul_cancel_r by lia.
    rewrite Z.mul_1_r. apply Z.mul_div_le. lia. }
  unfold q' at 3. rewrite length_case_fold. unfold length_Z in Hm. lia.
Qed.

Lemma fuzzy_match_agrees_on_half_witness :
  exists left,
    (left + String.length "hellow" <= String.length "hello world")%nat /\
    (2 * mismatch_count "hellow"
           (substring left (String.length "hellow") "hello world")
     <= String.length "hellow")%nat.
Proof.
  apply (fuzzy_match_agrees_on_half "hellow"
           [ItemString "hello world"; ItemString "help"] None None
           [ItemString "hello world"] (ItemString "hello world")).
  - vm_compute. congruence.
  - vm_compute. congruence.
  - reflexivity.
  - left. reflexivity.
Defined.

(** ** The exact-substring tier on objects *)

(** X11.  In the exact-substring tier an object is returned exactly when it is
    one of the items and the (case-folded) text of its selected property
    contains the (case-folded) query. *)
Theorem exact_tier_on_objects
    (q : string) (items : list item) (itemProperty : option string)
    (searchSettings : option FuzzyMatchSettings)
    (fields : list (string * value)) :
  let s := settings_in_force searchSettings in
  q <> EmptyString ->
  first_element_ok items itemProperty = true ->
  minimum_length_for_search s <= length_Z q
  < minimum_length_for_fuzzy_match s ->
  exists r,
    fuzzySearchByProperty q items itemProperty searchSettings = Ok r /\
    (In (ItemObject fields) r
     <-> In (ItemObject fields) items /\
         contains_substring
           (case_fold (case_sensitive_match s)
              (comparison_text itemProperty (ItemObject fields)))
           (case_fold (case_sensitive_match s) q)).
Proof.
  intros s Hq Hok [Hlo Hhi].
  rewrite fuzzySearchByProperty_by_tier. cbv zeta. fold s.
  destruct (Z.eqb_spec (length_Z q) 0) as [E|_].
  { destruct q; [congruence | unfold length_Z in E; simpl in E; lia]. }
  destruct items as [|first rest]; [discriminate Hok || idtac|].
  { exists []. split; [reflexivity|]. simpl. tauto. }
  rewrite Hok. cbn [negb].
  destruct (Z.ltb_spec (length_Z q) (minimum_length_for_search s)); [lia|].
  destruct (Z.ltb_spec (length_Z q) (minimum_length_for_fuzzy_match s)); [|lia].
  eexists. split; [reflexivity|].
  rewrite filter_In. unfold exact_decision, exact_tier_text.
  now rewrite includes_iff.
Qed.

Lemma exact_tier_on_objects_witness :
  exists r,
    fuzzySearchByProperty "ell"
      [ItemObject [("name", VString "Hello")]; ItemObject [("name", VString "bye")]]
      (Some "name") None = Ok r /\
    (In (ItemObject [("name", VString "Hello")]) r
     <-> In (ItemObject [("name", VString "Hello")])
           [ItemObject [("name", VString "Hello")];
            ItemObject [("name", VString "bye")]] /\
         contains_substring
           (case_fold false
              (comparison_text (Some "name")
                 (ItemObject [("name", VString "Hello")])))
           (case_fold false "ell")).
Proof.
  apply (exact_tier_on_objects "ell"
           [ItemObject [("name", VString "Hello")];
            ItemObject [("name", VString "bye")]]
           (Some "name") None [("name", VString "Hello")]).
  - discriminate.
  - reflexivity.
  - vm_compute. split; congruence.
Defined.

(** ** How searches compose *)

Lemma filter_filter {A : Type} (f : A -> bool) (l : list A) :
  filter f (filter f l) = filter f l.
Proof.
  induction l as [|a l IH]; simpl; [reflexivity|].
  destruct (f a) eqn:E; simpl; [rewrite E|]; congruence.
Qed.

(** X12.  Searching again in the result of a search, with the same query,
    selector and settings, returns that result whole, provided its first
    element passes the type check (it always does on a list of strings). *)
Theorem search_within_results
    (q : string) (items : list item) (itemProperty : option string)
    (searchSettings : option FuzzyMatchSettings) (r : list item) :
  fuzzySearchByProperty q items itemProperty searchSettings = Ok r ->
  first_element_ok r itemProperty = true ->
  fuzzySearchByProperty q r itemProperty searchSettings = Ok r.
Proof.
  rewrite !fuzzySearchByProperty_by_tier. cbv zeta.
  destruct (length_Z q =? 0); [intros E _; injection E as <-; reflexivity|].
  destruct items as [|first rest]; [intros E _; injection E as <-; reflexivity|].
  destruct (negb _); [discriminate|].
  destruct (_ <? _); [intros E _; injection E as <-; reflexivity|].
  generalize (first :: rest). intros l.
  destruct (_ <? _); intros E Hok; injection E as <-;
    (destruct (filter _ l) as [|y ys] eqn:El; [reflexivity|]);
    rewrite Hok; cbn [negb]; rewrite <- El, filter_filter; reflexivity.
Qed.

Lemma search_within_results_witness :
  fuzzySearchByProperty "hellow" [ItemString "hello world"] None None
  = Ok [ItemString "hello world"].
Proof.
  apply (search_within_results "hellow"
           [ItemString "hello world"; ItemString "help"] None None
           [ItemString "hello world"]).
  - reflexivity.
  - reflexivity.
Defined.

(** X13.  The items are decided one by one: when the searches on two lists
    return, the search on their concatenation returns the concatenation
    of the two results. *)
Theorem search_of_concatenation
    (q : string) (items1 items2 : list item) (itemProperty : option string)
    (searchSettings : option FuzzyMatchSettings) (r1 r2 : list item) :
  fuzzySearchByProperty q items1 itemProperty searchSettings = Ok r1 ->
  fuzzySearchByProperty q items2 itemProperty searchSettings = Ok r2 ->
  fuzzySearchByProperty q (items1 ++ items2) itemProperty searchSettings
  = Ok (r1 ++ r2).
Proof.
  destruct items1 as [|a l1].
  { intros E1 E2. cbn [app]. rewrite E2.
    unfold fuzzySearchByProperty in E1.
    destruct (length_Z q =? 0); injection E1 as <-; reflexivity. }
  destruct items2 as [|b l2].
  { intros E1 E2. rewrite app_nil_r, E1.
    unfold fuzzySearchByProperty in E2.
    destruct (length_Z q =? 0); injection E2 as <-; now rewrite app_nil_r. }
  rewrite !fuzzySearchByProperty_by_tier. cbv zeta.
  change ((a :: l1) ++ b :: l2) with (a :: (l1 ++ b :: l2)).
  change (first_element_ok (a :: l1 ++ b :: l2) itemProperty)
    with (first_element_ok (a :: l1) itemProperty).
  destruct (length_Z q =? 0);
    [intros E1 E2; injection E1 as <-; injection E2 as <-; reflexivity|].
  destruct (negb (first_element_ok (a :: l1) itemProperty)); [discriminate|].
  destruct (negb (first_element_ok (b :: l2) itemProperty)); [discriminate|].
  destruct (_ <? _);
    [intros E1 E2; injection E1 as <-; injection E2 as <-; reflexivity|].
  destruct (_ <? _); intros E1 E2; injection E1 as <-; injection E2 as <-;
    change (a :: l1 ++ b :: l2) with ((a :: l1) ++ (b :: l2));
    rewrite filter_app; reflexivity.
Qed.

Lemma search_of_concatenation_witness :
  fuzzySearchByProperty "hellow"
    ([ItemString "hello world"; ItemString "help"] ++ [ItemString "Mellow"])
    None None
  = Ok ([ItemString "hello world"] ++ [ItemString "Mellow"]).
Proof.
  apply (search_of_concatenation "hellow"
           [ItemString "hello world"; ItemString "help"] [ItemString "Mellow"]
           None None [ItemString "hello world"] [ItemString "Mellow"]).
  - reflexivity.
  - reflexivity.
Defined.

(** ** Case-sensitive against case-insensitive search *)

Lemma map_string_append (g : ascii -> ascii) (s t : string) :
  map_string g (s ++ t) = (map_string g s ++ map_string g t)%string.
Proof. induction s; simpl; congruence. Qed.

Lemma contains_substring_map (g : ascii -> ascii) (text q : string) :
  contains_substring text q ->
  contains_substring (map_string g text) (map_string g q).
Proof.
  intros [pre [post ->]]. exists (map_string g pre), (map_string g post).
  now rewrite !map_string_append.
Qed.

Lemma substring_map (g : ascii -> ascii) (s : string) :
  forall left n,
    substring left n (map_string g s) = map_string g (substring left n s).
Proof.
  induction s as [|c s IH]; intros left n; simpl.
  - destruct left, n; reflexivity.
  - destruct left as [|l].
    + destruct n as [|n]; simpl; [reflexivity|]. now rewrite IH.
    + apply IH.
Qed.

Lemma mismatch_count_map (g : ascii -> ascii) (q : string) :
  forall w,
    (mismatch_count (map_string g q) (map_string g w)
     <= mismatch_count q w)%nat.
Proof.
  induction q as [|a q IH]; intros [|b w]; simpl; try lia.
  specialize (IH w).
  destruct (Ascii.eqb_spec a b) as [->|]; [rewrite Ascii.eqb_refl; lia|].
  destruct (Ascii.eqb (g a) (g b)); lia.
Qed.

Lemma reference_scan_map (g : ascii -> ascii) (q text : string) (max : Z) :
  reference_scan q text max = true ->
  reference_scan (map_string g q) (map_string g text) max = true.
Proof.
  unfold reference_scan. rewrite !length_map_string. intros H.
  apply existsb_exists in H. destruct H as [left [Hin Hc]].
  apply existsb_exists. exists left. split; [exact Hin|].
  apply Z.leb_le in Hc. apply Z.leb_le.
  rewrite substring_map.
  assert (Hm := mismatch_count_map g q
                  (substring left (String.length q) text)).
  lia.
Qed.

(** X14.  Two settings that differ only in [case_sensitive_match], on a
    query and items whose compared texts are ASCII text: the
    case-insensitive search throws exactly when the case-sensitive one
    does, and otherwise returns every candidate that the case-sensitive
    one returns. *)
Theorem ignoring_case_keeps_candidates
    (q : string) (items : list item) (itemProperty : option string)
    (min_search min_fuzzy percentage : Z) :
  ascii_text q = true ->
  Forall (fun x =>
            ascii_text (comparison_text itemProperty x) = true /\
            ascii_text (exact_tier_text itemProperty x) = true) items ->
  match
    fuzzySearchByProperty q items itemProperty
      (Some (Build_FuzzyMatchSettings min_search min_fuzzy percentage true)),
    fuzzySearchByProperty q items itemProperty
      (Some (Build_FuzzyMatchSettings min_search min_fuzzy percentage false))
  with
  | Ok r1, Ok r2 => forall x, In x r1 -> In x r2
  | Throw m1, Throw m2 => m1 = m2
  | _, _ => False
  end.
Proof.
  intros _ _.
  rewrite !fuzzySearchByProperty_by_tier. cbv zeta.
  cbn [settings_in_force minimum_length_for_search
       minimum_length_for_fuzzy_match].
  destruct (length_Z q =? 0); [now intros x Hx|].
  destruct items as [|first rest]; [now intros x Hx|].
  destruct (negb _); [reflexivity|].
  destruct (length_Z q <? min_search); [now intros x Hx|].
  generalize (first :: rest). intros l.
  destruct (length_Z q <? min_fuzzy); intros x Hx;
    apply filter_In in Hx; destruct Hx as [Hin Hd];
    apply filter_In; (split; [exact Hin|]).
  - unfold exact_decision in *. cbn [case_sensitive_match case_fold] in *.
    apply includes_iff. apply includes_iff in Hd.
    now apply contains_substring_map.
  - unfold fuzzy_decision in *.
    cbn [case_sensitive_match percentage_allowed_mismatch case_fold] in *.
    now apply reference_scan_map.
Qed.

Lemma ignoring_case_keeps_candidates_witness :
  In (ItemString "hello world")
    [ItemString "hello world"; ItemString "HELLOW"].
Proof.
  apply (ignoring_case_keeps_candidates "hellow"
           [ItemString "hello world"; ItemString "HELLOW"; ItemString "yelp"]
           None 1 5 25).
  - reflexivity.
  - repeat constructor.
  - left. reflexivity.
Defined.

(** ** Strings in the fuzzy tier, and the early exit *)

(** X15.  In the fuzzy tier a list of strings is searched on the strings
    themselves: the property selector plays no part in the result. *)
Theorem fuzzy_tier_ignores_selector_on_strings
    (q : string) (items : list string) (p1 p2 : option string)
    (searchSettings : option FuzzyMatchSettings) :
  minimum_length_for_fuzzy_match (settings_in_force searchSettings)
  <= length_Z q ->
  fuzzySearchByProperty q (map ItemString items) p1 searchSettings
  = fuzzySearchByProperty q (map ItemString items) p2 searchSettings.
Proof.
  intros Hfz. rewrite !fuzzySearchByProperty_by_tier. cbv zeta.
  destruct (length_Z q =? 0); [reflexivity|].
  destruct items as [|str rest]; [reflexivity|].
  cbn [map first_element_ok item_is_string orb negb].
  destruct (_ <? _); [reflexivity|].
  destruct (Z.ltb_spec (length_Z q)
              (minimum_length_for_fuzzy_match (settings_in_force searchSettings)));
    [lia|].
  f_equal.
  change (ItemString str :: map ItemString rest)
    with (map ItemString (str :: rest)).
  rewrite !filter_map_swap. f_equal.
Qed.

Lemma fuzzy_tier_ignores_selector_on_strings_witness :
  fuzzySearchByProperty "hellow" (map ItemString ["hello world"; "help"])
    (Some "length") None
  = fuzzySearchByProperty "hellow" (map ItemString ["hello world"; "help"])
      None None.
Proof.
  apply (fuzzy_tier_ignores_selector_on_strings "hellow"
           ["hello world"; "help"] (Some "length") None None).
  vm_compute. congruence.
Defined.

(** X16.  The early exit of the inner loop: run from a position [i] with
    at least as much fuel as there are positions left in the window (the
    [while] loop gives it one more than the length of the window), and
    entered with a count within the bound, the loop leaves with a count;
    that count has not decreased and exceeds the bound by one at most. *)
Theorem for_loop_stops_at_first_excess
    (searchString _item : string)
    (left searchLength max_allowed_mismatch_count : Z) :
  forall (fuel : nat) (i count : Z),
    (Z.to_nat (left + searchLength - i) < fuel)%nat ->
    count <= max_allowed_mismatch_count ->
    exists c,
      for_loop fuel searchString _item left searchLength
        max_allowed_mismatch_count i count = Ok c /\
      count <= c <= max_allowed_mismatch_count + 1.
Proof.
  induction fuel as [|fuel IH]; intros i count Hfuel Hc; [lia|]. simpl.
  destruct (Z.ltb_spec i (left + searchLength)).
  - destruct (IH (i + 1) count) as [c0 [E0 B0]]; [lia | exact Hc |].
    destruct (strict_neq _ _).
    + destruct (Z.gtb_spec (count + 1) max_allowed_mismatch_count).
      * exists (count + 1). split; [reflexivity | lia].
      * destruct (IH (i + 1) (count + 1)) as [c1 [E1 B1]]; [lia | lia |].
        exists c1. split; [exact E1 | lia].
    + exists c0. split; [exact E0 | lia].
  - exists count. split; [reflexivity | lia].
Qed.

Lemma for_loop_stops_at_first_excess_witness :
  exists c,
    for_loop 7 "hellow" "yallaw world" 0 6 1 0 0 = Ok c /\
    0 <= c <= 1 + 1.
Proof.
  apply (for_loop_stops_at_first_excess "hellow" "yallaw world" 0 6 1 7 0 0).
  - vm_compute. lia.
  - lia.
Defined.
